(** * A shallow embedding of the REST API of rest-api-school-database

    The source file [models/user.js] holds the [User] model and the
    express router of the API: the [asyncHandler] wrapper, the
    [authenticateUser] middleware, the express-validator chains for users
    and courses, and the eight routes.  This development embeds them as
    functions over an explicit state (the database rows and the process
    global object) threaded through a small state-and-exception monad. *)

From Stdlib Require Import String Ascii List ZArith Bool Lia.
Set Warnings "-register-all".
Import ListNotations.
Open Scope string_scope.
Open Scope Z_scope.

(** ** JSON values, as requests and responses carry them *)

(** Numbers are restricted to integers: no claim is about floating point.
    A string holds the UTF-8 bytes of the JavaScript string, one [ascii]
    per byte. *)
Inductive json : Type :=
| JNull
| JBool (b : bool)
| JNum (z : Z)
| JStr (s : string)
| JArr (l : list json)
| JObj (kvs : list (string * json)).

(** [obj[k]] on a parsed JSON object: [JSON.parse] keeps the last binding of
    a duplicated key; [None] is [undefined]. *)
Fixpoint obj_get (k : string) (kvs : list (string * json)) : option json :=
  match kvs with
  | [] => None
  | (k', v) :: t =>
      match obj_get k t with
      | Some v' => Some v'
      | None => if String.eqb k k' then Some v else None
      end
  end.

(** JavaScript truthiness ([!!value]) of a possibly undefined value. *)
Definition truthy (v : option json) : bool :=
  match v with
  | None | Some JNull => false
  | Some (JBool b) => b
  | Some (JNum z) => negb (z =? 0)
  | Some (JStr s) => negb (String.eqb s "")
  | Some (JArr _) | Some (JObj _) => true
  end.

(** ** Small string helpers *)

Fixpoint str_forallb (p : ascii -> bool) (s : string) : bool :=
  match s with
  | EmptyString => true
  | String c s' => p c && str_forallb p s'
  end.

Fixpoint drop_while (p : ascii -> bool) (s : string) : string :=
  match s with
  | EmptyString => EmptyString
  | String c s' => if p c then drop_while p s' else s
  end.

Fixpoint take_while (p : ascii -> bool) (s : string) : string :=
  match s with
  | EmptyString => EmptyString
  | String c s' => if p c then String c (take_while p s') else EmptyString
  end.

(** [contains_sub needle hay]: [hay.includes(needle)]. *)
Fixpoint contains_sub (needle hay : string) : bool :=
  String.prefix needle hay ||
  match hay with
  | EmptyString => false
  | String _ hay' => contains_sub needle hay'
  end.

Definition code (c : ascii) : nat := nat_of_ascii c.
Definition in_range (lo hi : nat) (c : ascii) : bool :=
  Nat.leb lo (code c) && Nat.leb (code c) hi.
Definition is_upper := in_range 65 90.
Definition is_lower := in_range 97 122.
Definition is_digit := in_range 48 57.
Definition is_space (c : ascii) : bool := Ascii.eqb c " "%char.

(** [s.toLowerCase()] on ASCII text (every field name of the file is
    ASCII). *)
Fixpoint lowercase (s : string) : string :=
  match s with
  | EmptyString => EmptyString
  | String c s' =>
      String (if is_upper c then ascii_of_nat (code c + 32) else c) (lowercase s')
  end.

(** ** The [basic-auth] package: [auth(req)] *)

(** Node's [Buffer.from(s, 'base64')]: characters outside the (standard and
    URL-safe) alphabet are skipped, decoding stops at the first [=]. *)
Definition b64_val (c : ascii) : option nat :=
  if is_upper c then Some (code c - 65)%nat
  else if is_lower c then Some (code c - 97 + 26)%nat
  else if is_digit c then Some (code c - 48 + 52)%nat
  else if Ascii.eqb c "+" || Ascii.eqb c "-" then Some 62%nat
  else if Ascii.eqb c "/" || Ascii.eqb c "_" then Some 63%nat
  else None.

Fixpoint b64_sextets (s : string) : list nat :=
  match s with
  | EmptyString => []
  | String c s' =>
      if Ascii.eqb c "=" then []
      else match b64_val c with
           | Some v => v :: b64_sextets s'
           | None => b64_sextets s'
           end
  end.

Fixpoint b64_bytes (l : list nat) : list nat :=
  match l with
  | a :: b :: c :: d :: rest =>
      [a * 4 + b / 16; (b mod 16) * 16 + c / 4; (c mod 4) * 64 + d]%nat
        ++ b64_bytes rest
  | [a; b; c] => [a * 4 + b / 16; (b mod 16) * 16 + c / 4]%nat
  | [a; b] => [a * 4 + b / 16]%nat
  | _ => []
  end.

(** [lo <= b <= hi]. *)
Definition byte_in (lo hi b : nat) : bool := Nat.leb lo b && Nat.leb b hi.

(** U+FFFD, the replacement character, in UTF-8. *)
Definition fffd : list nat := [239; 191; 189]%nat.

(** [buf.toString()]: the UTF-8 decoder of the Encoding Standard, that V8
    uses.  A lead byte fixes the range of its first continuation byte
    ([E0]: A0..BF, [ED]: 80..9F, [F0]: 90..BF, [F4]: 80..8F, otherwise
    80..BF); a maximal prefix of a sequence that breaks off, or a byte that
    starts none, becomes one U+FFFD, and the byte that broke it off is read
    again.  The result is given back as UTF-8. *)
Fixpoint utf8_fix (l : list nat) : list nat :=
  match l with
  | [] => []
  | b :: t =>
      if Nat.ltb b 128 then b :: utf8_fix t
      else if byte_in 194 223 b then
        match t with
        | c :: t1 =>
            if byte_in 128 191 c then b :: c :: utf8_fix t1
            else fffd ++ utf8_fix t
        | [] => fffd
        end
      else if byte_in 224 239 b then
        let lo := if Nat.eqb b 224 then 160%nat else 128%nat in
        let hi := if Nat.eqb b 237 then 159%nat else 191%nat in
        match t with
        | c :: t1 =>
            if byte_in lo hi c then
              match t1 with
              | d :: t2 =>
                  if byte_in 128 191 d then b :: c :: d :: utf8_fix t2
                  else fffd ++ utf8_fix t1
              | [] => fffd
              end
            else fffd ++ utf8_fix t
        | [] => fffd
        end
      else if byte_in 240 244 b then
        let lo := if Nat.eqb b 240 then 144%nat else 128%nat in
        let hi := if Nat.eqb b 244 then 143%nat else 191%nat in
        match t with
        | c :: t1 =>
            if byte_in lo hi c then
              match t1 with
              | d :: t2 =>
                  if byte_in 128 191 d then
                    match t2 with
                    | e :: t3 =>
                        if byte_in 128 191 e then b :: c :: d :: e :: utf8_fix t3
                        else fffd ++ utf8_fix t2
                    | [] => fffd
                    end
                  else fffd ++ utf8_fix t1
              | [] => fffd
              end
            else fffd ++ utf8_fix t
        | [] => fffd
        end
      else fffd ++ utf8_fix t
  end.

Definition bytes_of (s : string) : list nat := map nat_of_ascii (list_ascii_of_string s).
Definition string_of_bytes (l : list nat) : string := string_of_list_ascii (map ascii_of_nat l).

(** [Buffer.from(token, 'base64').toString()]. *)
Definition decodeBase64 (s : string) : string :=
  string_of_bytes (utf8_fix (b64_bytes (b64_sextets s))).

(** [CREDENTIALS_REGEXP = /^ *(?:[Bb][Aa][Ss][Ii][Cc]) +([A-Za-z0-9._~+/-]+=* ) *$/]
    (without the blank before the closing parenthesis): the captured token. *)
Definition token_char (c : ascii) : bool :=
  is_upper c || is_lower c || is_digit c ||
  existsb (Ascii.eqb c) ["."; "_"; "~"; "+"; "/"; "-"]%char.

Definition ci_eqb (c : ascii) (lower : ascii) : bool :=
  Ascii.eqb c lower || Nat.eqb (code c + 32) (code lower).

Definition credentials_token (h : string) : option string :=
  match drop_while is_space h with
  | String b (String a (String s (String i (String c rest)))) =>
      if ci_eqb b "b" && ci_eqb a "a" && ci_eqb s "s" && ci_eqb i "i"
         && ci_eqb c "c" then
        match rest with
        | String sp rest1 =>
            if is_space sp then
              let rest2 := drop_while is_space rest1 in
              let tok := take_while token_char rest2 in
              let rest3 := drop_while token_char rest2 in
              let eqs := take_while (fun x => Ascii.eqb x "=") rest3 in
              let rest4 := drop_while (fun x => Ascii.eqb x "=") rest3 in
              match tok, drop_while is_space rest4 with
              | String _ _, EmptyString => Some (tok ++ eqs)
              | _, _ => None
              end
            else None
        | EmptyString => None
        end
      else None
  | _ => None
  end.

(** Does the text start with a line terminator of JavaScript regular
    expressions: LF, CR, U+2028 or U+2029 (UTF-8 [E2 80 A8], [E2 80 A9])? *)
Definition starts_line_terminator (s : string) : bool :=
  match s with
  | String c s' =>
      Ascii.eqb c "010"%char || Ascii.eqb c "013"%char ||
      (Nat.eqb (code c) 226 &&
       match s' with
       | String c1 (String c2 _) =>
           Nat.eqb (code c1) 128 && (Nat.eqb (code c2) 168 || Nat.eqb (code c2) 169)
       | _ => false
       end)
  | EmptyString => false
  end.

(** [.*] matches the whole text: no line terminator starts anywhere. *)
Fixpoint no_line_terminator (s : string) : bool :=
  match s with
  | EmptyString => true
  | String _ s' => negb (starts_line_terminator s) && no_line_terminator s'
  end.

(** [USER_PASS_REGEXP]: from the start, a group of non-colon characters,
    a colon, then a group [.] repeated up to the end: a colon-free name, a colon,
    then the password up to the end, where [.] does not match a line
    terminator: split at the first colon, and refuse a password holding a
    line terminator. *)
Fixpoint split_user_pass (s : string) : option (string * string) :=
  match s with
  | EmptyString => None
  | String c s' =>
      if Ascii.eqb c ":" then
        if no_line_terminator s' then Some ("", s') else None
      else match split_user_pass s' with
           | Some (n, p) => Some (String c n, p)
           | None => None
           end
  end.

Record credentials := Credentials { cred_name : string; cred_pass : string }.

(** [auth(req)]: [parse(req.headers.authorization)]. *)
Definition basic_auth (authorization : option string) : option credentials :=
  match authorization with
  | None => None
  | Some h =>
      match credentials_token h with
      | None => None
      | Some tok =>
          match split_user_pass (decodeBase64 tok) with
          | Some (n, p) => Some (Credentials n p)
          | None => None
          end
      end
  end.

(** ** Libraries the router calls through an interface

    [validator]'s [isEmail] and [bcryptjs]'s [hashSync] / [compareSync] are
    external packages: the router only relies on their interface.  The salt
    [hashSync] draws is internal to the package. *)
Class NpmLibs := {
  isEmail : string -> bool;
  hashSync : string -> string;
  compareSync : string -> string -> bool
}.


(** ** Decimal renderings *)

(** Decimal rendering of an integer, [String(n)]. *)
Fixpoint z_digits (fuel : nat) (n : Z) (acc : string) : string :=
  match fuel with
  | O => acc
  | S f =>
      let acc' := String (ascii_of_nat (48 + Z.to_nat (n mod 10))) acc in
      if n <? 10 then acc' else z_digits f (n / 10) acc'
  end.

Definition string_of_Z (z : Z) : string :=
  if z <? 0 then "-" ++ z_digits (Pos.size_nat (Z.to_pos (- z))) (- z) ""
  else z_digits (S (Pos.size_nat (Z.to_pos z))) z "".

(** [String(v)] of a JSON value, as [Array.prototype.join] renders an
    element ([null] becomes the empty string there). *)
Fixpoint js_String (v : json) : string :=
  match v with
  | JNull => ""
  | JBool b => if b then "true" else "false"
  | JNum z => string_of_Z z
  | JStr s => s
  | JArr l =>
      (fix join (l : list json) : string :=
         match l with
         | [] => ""
         | [x] => js_String x
         | x :: t => js_String x ++ "," ++ join t
         end) l
  | JObj _ => "[object Object]"
  end.

(** [typeof v]. *)
Definition js_typeof (v : option json) : string :=
  match v with
  | None => "undefined"
  | Some (JBool _) => "boolean"
  | Some (JNum _) => "number"
  | Some (JStr _) => "string"
  | Some _ => "object"
  end.

(** ** Requests *)

Inductive route :=
| GetRoot
| GetUsers
| PostUsers
| GetCourses
| GetCourse (id : Z)
| PostCourses
| PutCourse (id : Z)
| DeleteCourse (id : Z).

(** The request data the router reads: the route with its [:id]
    parameter, the [Authorization] header, the other headers (by lowercase
    name, as Node gives them in [req.headers]), the cookies a cookie parser
    put in [req.cookies] (none without one), the parsed query string
    [req.query], and the parsed JSON body [req.body]. *)
Record request := Request {
  rq_route : route;
  rq_authorization : option string;
  rq_headers : list (string * string);
  rq_cookies : list (string * json);
  rq_query : list (string * json);
  rq_body : list (string * json)
}.

(** [req.params]: the [:id] segment of the path (written here as the
    decimal form of the id). *)
Definition route_params (rt : route) : list (string * json) :=
  match rt with
  | GetCourse id | PutCourse id | DeleteCourse id => [("id", JStr (string_of_Z id))]
  | _ => []
  end.

(** [req.headers[name]]. *)
Definition header_get (name : string) (r : request) : option string :=
  if String.eqb name "authorization" then rq_authorization r
  else option_map snd (find (fun kv => String.eqb (fst kv) name) (rq_headers r)).

(** ** express-validator (version 6) *)

(** express-validator's [toString]: what a standard validator receives. *)
Definition ev_toString (v : option json) : string :=
  match v with
  | None | Some JNull => ""
  | Some (JArr (x :: _)) => js_String x
  | Some x => js_String x
  end.

(** validator's [isAlpha] (locale en-US): [/^[A-Z]+$/i]. *)
Definition isAlpha (s : string) : bool :=
  negb (String.eqb s "") && str_forallb (fun c => is_upper c || is_lower c) s.

(** validator's [isInt({ allow_leading_zeroes: false })]: an optional sign,
    then [0] or a digit string not starting with [0]. *)
Definition isInt_no_leading_zeroes (s : string) : bool :=
  let body := match s with
              | String c s' =>
                  if Ascii.eqb c "+" || Ascii.eqb c "-" then s' else s
              | EmptyString => s
              end in
  match body with
  | String c rest =>
      if Ascii.eqb c "0" then String.eqb rest ""
      else is_digit c && str_forallb is_digit rest
  | EmptyString => false
  end.

(** The request locations a field is read from: [check(f)] reads body,
    cookies, headers, params and query, in this order; [body(f)] the body
    alone. *)
Inductive location := LBody | LCookies | LHeaders | LParams | LQuery.

Definition check_locations : list location := [LBody; LCookies; LHeaders; LParams; LQuery].

(** [_.get(req[location], f)]; a header is looked up by [f.toLowerCase()]. *)
Definition loc_get (r : request) (l : location) (f : string) : option json :=
  match l with
  | LBody => obj_get f (rq_body r)
  | LCookies => obj_get f (rq_cookies r)
  | LHeaders => option_map JStr (header_get (lowercase f) r)
  | LParams => obj_get f (route_params (rq_route r))
  | LQuery => obj_get f (rq_query r)
  end.

(** [.exists()]: [value !== undefined]. *)
Definition exists_plain (v : option json) : bool :=
  match v with None => false | Some _ => true end.

(** The field instances a chain validates ([selectFields], then
    [context.getData()]): one per location; when there are several
    locations, those holding a value, or only the first one when none
    does. *)
Definition select_fields (r : request) (locs : list location) (f : string)
  : list (option json) :=
  let insts := map (fun l => loc_get r l f) locs in
  match locs with
  | _ :: _ :: _ =>
      match filter exists_plain insts with
      | [] => firstn 1 insts
      | vs => vs
      end
  | _ => insts
  end.

(** The items of a validation chain.  [.exists()] and [.isString()] are
    custom validators: they see the raw value.  [.isAlpha()], [.isEmail()] and
    [.isInt()] are standard validators: they see [toString] of the value.
    [.if(cond)] stops the chain for an instance whose condition fails.
    [.withMessage(m)] is folded into its validator. *)
Inductive vitem :=
| VCustom (f : option json -> bool) (msg : string)
| VStandard (f : string -> bool) (msg : string)
| VIf (cond : option json -> bool).

Record chain := Chain {
  ch_field : string;
  ch_locations : list location;
  ch_items : list vitem
}.

(** Running one chain: the items run in order (no [.bail()] is used), each
    on every instance still running, in instance order; each failure adds
    the validator's message. *)
Fixpoint run_items (items : list vitem) (vs : list (option json)) : list string :=
  match items with
  | [] => []
  | VCustom f msg :: rest =>
      flat_map (fun v => if f v then [] else [msg]) vs ++ run_items rest vs
  | VStandard f msg :: rest =>
      flat_map (fun v => if f (ev_toString v) then [] else [msg]) vs
        ++ run_items rest vs
  | VIf cond :: rest => run_items rest (filter cond vs)
  end.

(** The chains run one after the other as express middleware; the
    messages of [validationResult(req).array().map(e => e.msg)]. *)
Definition run_chains (chains : list chain) (r : request) : list string :=
  flat_map (fun c => run_items (ch_items c)
                       (select_fields r (ch_locations c) (ch_field c))) chains.

(** [.exists({checkNull: true, checkFalsy: true})]: [!!value]. *)
Definition exists_falsy : option json -> bool := truthy.
(** [.isString()]: [typeof value === 'string']. *)
Definition is_string (v : option json) : bool :=
  match v with Some (JStr _) => true | _ => false end.

Definition userValidationChain `{NpmLibs} : list chain := [
  Chain "firstName" check_locations
    [VCustom exists_falsy "You must provide a first name for the user using the key firstName";
     VStandard isAlpha "firstName must be a string, with only alpha characters"];
  Chain "lastName" check_locations
    [VCustom exists_falsy "You must provide a last name for the user using the key lastName";
     VStandard isAlpha "lastName must be a string, with only alpha characters"];
  Chain "emailAddress" check_locations
    [VCustom exists_falsy "You must provide an email address for the user using the key emailAddress";
     VStandard isEmail "You must provide a valid email address"];
  Chain "password" check_locations
    [VCustom exists_falsy "You must provide a password for the user using the key password"]
].

Definition courseValidationChain : list chain := [
  Chain "title" check_locations
    [VCustom exists_falsy "You must provide a title for the course with the key title";
     VCustom is_string "The title must be a string"];
  Chain "description" check_locations
    [VCustom exists_falsy "You must provide a description for the course with the key description";
     VCustom is_string "The description must be a string (it is a text field)"];
  Chain "estimatedTime" [LBody]
    [VIf exists_plain;
     VCustom is_string "If you provide information for estimatedTime, it should be in string format"];
  Chain "materialsNeeded" [LBody]
    [VIf exists_plain;
     VCustom is_string "If you provide information about the materialsNeeded, it should be in string format"];
  Chain "userId" check_locations
    [VCustom exists_falsy "You must provide the id of the user this course belongs to";
     VStandard isInt_no_leading_zeroes "You must provide a valid userId"]
].

(** ** The database (the Sequelize models over SQLite) *)

(** A [User] row, as [User.init] declares it (plus the auto-incremented id):
    four STRING columns, held as text. *)
Record user := User {
  u_id : Z;
  u_firstName : string;
  u_lastName : string;
  u_emailAddress : string;
  u_password : string
}.

(** Modelled from the spec: the [Course] model (its model file is not under
    src/): id, a required title and description, optional estimatedTime and
    materialsNeeded (text columns, [NULL] when not given), and the owner
    reference [userId], the INTEGER column [User.hasMany] adds, non-null,
    with a foreign-key constraint to [User.id]. *)
Record course := Course {
  c_id : Z;
  c_title : string;
  c_description : string;
  c_estimatedTime : option string;
  c_materialsNeeded : option string;
  c_userId : Z
}.

Record store := Store {
  users : list user;
  courses : list course;
  next_user_id : Z;
  next_course_id : Z
}.

(** The process global object, written by an assignment to an undeclared
    identifier in sloppy mode. *)
Definition globals := list (string * json).

Record state := State { st_db : store; st_globals : globals }.

(** *** Column values *)

(** [z] fits the 32 bits [sqlite3] binds a JavaScript number as an integer
    in; any other number is bound as a double. *)
Definition int32 (z : Z) : bool := (-2147483648 <=? z) && (z <=? 2147483647).

(** The number of trailing zero digits of a positive [f] (at most [fuel]). *)
Fixpoint trailing_zeros (fuel : nat) (f : Z) : nat :=
  match fuel with
  | O => O
  | S n => if (0 <? f) && (f mod 10 =? 0) then S (trailing_zeros n (f / 10)) else O
  end.

(** The digits after the point of a 15-digit mantissa [m]: its last 14
    digits without their trailing zeroes, and at least one digit. *)
Definition frac_digits (m : Z) : string :=
  let f := m mod 10 ^ 14 in
  if f =? 0 then "0"
  else
    let j := Z.of_nat (trailing_zeros 14 f) in
    let s := string_of_Z (10 ^ (14 - j) + f / 10 ^ j) in
    substring 1 (String.length s - 1) s.

(** The text SQLite gives a double holding the integer [z] ([%!.15g]):
    the digits then [.0] below 10^15, otherwise 15 significant digits
    (the last one rounded half up) in exponent form. *)
Definition real_text (z : Z) : string :=
  let a := Z.abs z in
  let sign := if z <? 0 then "-" else "" in
  if a <? 10 ^ 15 then sign ++ string_of_Z a ++ ".0"
  else
    let k := Z.of_nat (String.length (string_of_Z a)) in
    let p := 10 ^ (k - 15) in
    let q := a / p + (if 2 * (a mod p) >=? p then 1 else 0) in
    let '(m, e) := if q =? 10 ^ 15 then (10 ^ 14, k) else (q, k - 1) in
    sign ++ string_of_Z (m / 10 ^ 14) ++ "." ++ frac_digits m ++ "e+" ++ string_of_Z e.

(** The text a TEXT-affinity column (Sequelize STRING or TEXT) stores for a
    non-null JavaScript value: a string as it is, a number as SQLite renders
    the integer or double [sqlite3] bound, a boolean as the integer 1 or 0
    it is bound as.  Sequelize refuses an array or an object there, and
    [null] is [NULL]: no text. *)
Definition text_of (v : json) : option string :=
  match v with
  | JStr s => Some s
  | JNum z => Some (if int32 z then string_of_Z z else real_text z)
  | JBool b => Some (if b then "1" else "0")
  | _ => None
  end.

(** A required text column: the text, or [None] when Sequelize refuses the
    value ([null], [undefined], an array or an object). *)
Definition column_text (v : option json) : option string :=
  match v with Some x => text_of x | None => None end.

(** An optional text column: [Some None] is [NULL] (the value is [null] or
    [undefined]); [None] when Sequelize refuses the value. *)
Definition nullable_text (v : option json) : option (option string) :=
  match v with
  | None | Some JNull => Some None
  | Some x => option_map Some (text_of x)
  end.

(** The errors [InstanceValidator._validateSchema] reports for a text
    column, as ["type: message"]. *)
Definition text_errors (model field : string) (allow_null : bool) (v : option json)
  : list string :=
  match v with
  | None | Some JNull =>
      if allow_null then []
      else ["notNull Violation: " ++ model ++ "." ++ field ++ " cannot be null"]
  | Some (JArr _) | Some (JObj _) =>
      ["string violation: " ++ field ++ " cannot be an array or an object"]
  | Some _ => []
  end.

(** The errors for the non-null INTEGER column [userId]. *)
Definition notnull_errors (model field : string) (v : option json) : list string :=
  match v with
  | None | Some JNull => ["notNull Violation: " ++ model ++ "." ++ field ++ " cannot be null"]
  | Some _ => []
  end.

(** The message of a [SequelizeValidationError]: its items joined by a
    comma and a newline. *)
Fixpoint join_errors (l : list string) : string :=
  match l with
  | [] => ""
  | [x] => x
  | x :: t => x ++ "," ++ String "010"%char "" ++ join_errors t
  end.

(** The integer a decimal digit string denotes. *)
Fixpoint digits_value (acc : Z) (s : string) : Z :=
  match s with
  | EmptyString => acc
  | String c s' => digits_value (acc * 10 + Z.of_nat (code c - 48)) s'
  end.

(** [z] is a 64-bit signed integer. *)
Definition int64 (z : Z) : bool :=
  (-9223372036854775808 <=? z) && (z <=? 9223372036854775807).

(** A text that is an integer literal (an optional sign, then digits) in
    the 64-bit range: the integer an INTEGER-affinity column stores for it.
    (The texts the validation lets through hold no other numeric form.) *)
Definition int_literal (s : string) : option Z :=
  let '(neg, ds) := match s with
                    | String c s' =>
                        if Ascii.eqb c "-" then (true, s')
                        else if Ascii.eqb c "+" then (false, s') else (false, s)
                    | EmptyString => (false, s)
                    end in
  if negb (String.eqb ds "") && str_forallb is_digit ds then
    let z := if neg then - digits_value 0 ds else digits_value 0 ds in
    if int64 z then Some z else None
  else None.

(** The integer the INTEGER column [userId] stores for a non-null value,
    or [None] when it stays a text or a double, which matches no [User.id]:
    a number is bound as it is, a boolean as 1 or 0, a string as text that
    SQLite turns into an integer when it is an integer literal, an array or
    an object as its [toString()] text. *)
Definition sqlite_int (v : json) : option Z :=
  match v with
  | JNum z => if int64 z then Some z else None
  | JBool b => Some (if b then 1 else 0)
  | JStr s => int_literal s
  | JArr _ => int_literal (js_String v)
  | JObj _ => None
  | JNull => None
  end.

(** The JSON of a full [User] instance (password included). *)
Definition user_row_json (u : user) : json :=
  JObj [("id", JNum (u_id u)); ("firstName", JStr (u_firstName u));
        ("lastName", JStr (u_lastName u)); ("emailAddress", JStr (u_emailAddress u));
        ("password", JStr (u_password u))].

(** [User.findAll({attributes: ['id', 'firstName', 'lastName', 'emailAddress']})],
    one row serialized. *)
Definition user_public_json (u : user) : json :=
  JObj [("id", JNum (u_id u)); ("firstName", JStr (u_firstName u));
        ("lastName", JStr (u_lastName u)); ("emailAddress", JStr (u_emailAddress u))].

Definition text_json (t : option string) : json :=
  match t with Some s => JStr s | None => JNull end.

Definition course_json (c : course) : json :=
  JObj [("id", JNum (c_id c)); ("title", JStr (c_title c));
        ("description", JStr (c_description c));
        ("estimatedTime", text_json (c_estimatedTime c));
        ("materialsNeeded", text_json (c_materialsNeeded c));
        ("userId", JNum (c_userId c))].

(** ** A state and exception monad for the async route handlers *)

Inductive outcome (A : Type) :=
| Ok (a : A)
| Throw (name message : string).
Arguments Ok {A} a.
Arguments Throw {A} name message.

Definition M (A : Type) := state -> outcome A * state.

Definition ret {A} (a : A) : M A := fun s => (Ok a, s).

Definition bind {A B} (m : M A) (k : A -> M B) : M B := fun s =>
  match m s with
  | (Ok a, s') => k a s'
  | (Throw n d, s') => (Throw n d, s')
  end.

Definition throw {A} (name message : string) : M A := fun s =>
  (Throw name message, s).

(** [try { m } catch (error) { h(error.name, error.message) }]: the effects
    [m] made before it threw stay. *)
Definition try_catch {A} (m : M A) (h : string -> string -> M A) : M A :=
  fun s =>
    match m s with
    | (Ok a, s') => (Ok a, s')
    | (Throw n d, s') => h n d s'
    end.

Notation "x <- m ;; k" := (bind m (fun x => k))
  (at level 61, m at next level, right associativity).
Notation "m ;;; k" := (bind m (fun _ => k))
  (at level 61, right associativity).

Definition get_db : M store := fun s => (Ok (st_db s), s).
Definition put_db (db : store) : M unit := fun s =>
  (Ok tt, State db (st_globals s)).

(** *** Persistence calls *)

Definition user_findAll : M (list user) := db <- get_db ;; ret (users db).

(** [User.create({id: null, firstName, lastName, emailAddress, password})]:
    the validation of the instance, then the INSERT. *)
Definition user_create (firstName lastName emailAddress : option json)
  (password : string) : M user :=
  match column_text firstName, column_text lastName, column_text emailAddress with
  | Some f, Some l, Some e =>
      db <- get_db ;;
      let u := User (next_user_id db) f l e password in
      put_db (Store (users db ++ [u]) (courses db) (next_user_id db + 1)
                (next_course_id db)) ;;;
      ret u
  | _, _, _ =>
      throw "SequelizeValidationError"
        (join_errors (text_errors "User" "firstName" false firstName ++
                      text_errors "User" "lastName" false lastName ++
                      text_errors "User" "emailAddress" false emailAddress))
  end.

Definition course_findAll : M (list course) := db <- get_db ;; ret (courses db).

Definition course_findByPk (id : Z) : M (option course) :=
  db <- get_db ;; ret (find (fun c => c_id c =? id) (courses db)).

Definition fk_error {A} : M A :=
  throw "SequelizeForeignKeyConstraintError"
    "SQLITE_CONSTRAINT: FOREIGN KEY constraint failed".

(** The foreign-key check of a written [userId]: it must be an integer
    naming a stored [User]. *)
Definition user_exists (db : store) (z : Z) : bool :=
  existsb (fun u => u_id u =? z) (users db).

Definition fk_check {A} (db : store) (v : json) (k : Z -> M A) : M A :=
  match sqlite_int v with
  | Some z => if user_exists db z then k z else fk_error
  | None => fk_error
  end.

(** The schema errors of a course written with these values (for an
    update, only the values given). *)
Definition course_errors (title description estimatedTime materialsNeeded
  userId : option json) : list string :=
  text_errors "Course" "title" false title ++
  text_errors "Course" "description" false description ++
  text_errors "Course" "estimatedTime" true estimatedTime ++
  text_errors "Course" "materialsNeeded" true materialsNeeded ++
  notnull_errors "Course" "userId" userId.

(** [Course.create({id: null, ...})]: the validation of the instance, then
    the INSERT, where the foreign key is checked. *)
Definition course_create (title description estimatedTime materialsNeeded
  userId : option json) : M course :=
  match column_text title, column_text description, nullable_text estimatedTime,
        nullable_text materialsNeeded, userId with
  | Some t, Some d, Some e, Some m, Some v =>
      if match v with JNull => false | _ => true end then
        db <- get_db ;;
        fk_check db v (fun z =>
          let c := Course (next_course_id db) t d e m z in
          put_db (Store (users db) (courses db ++ [c]) (next_user_id db)
                    (next_course_id db + 1)) ;;;
          ret c)
      else throw "SequelizeValidationError"
             (join_errors (course_errors title description estimatedTime
                             materialsNeeded userId))
  | _, _, _, _, _ =>
      throw "SequelizeValidationError"
        (join_errors (course_errors title description estimatedTime
                        materialsNeeded userId))
  end.

(** [instance.update(values)]: a key whose value is [undefined] is dropped;
    a given value is validated and written. *)
Definition upd_text (v : option json) (old : string) : option string :=
  match v with None => Some old | Some x => text_of x end.

Definition upd_nullable (v : option json) (old : option string) : option (option string) :=
  match v with None => Some old | Some _ => nullable_text v end.

(** Does the new [userId] value count as a change ([_.isEqual] on the raw
    values)?  Only the same number does not. *)
Definition userId_changed (v : json) (old : Z) : bool :=
  match v with JNum z => negb (z =? old) | _ => true end.

Definition replace_course (c' : course) (cs : list course) : list course :=
  map (fun x => if c_id x =? c_id c' then c' else x) cs.

(** The errors of an update: the schema errors of the given values. *)
Definition update_errors (title description estimatedTime materialsNeeded
  userId : option json) : list string :=
  let given := fun (f : option json -> list string) (v : option json) =>
                 match v with None => [] | Some _ => f v end in
  given (text_errors "Course" "title" false) title ++
  given (text_errors "Course" "description" false) description ++
  text_errors "Course" "estimatedTime" true estimatedTime ++
  text_errors "Course" "materialsNeeded" true materialsNeeded ++
  given (notnull_errors "Course" "userId") userId.

(** The UPDATE writes the changed columns; the foreign key is checked when
    [userId] is one of them. *)
Definition course_update (c : course) (title description estimatedTime
  materialsNeeded userId : option json) : M unit :=
  match upd_text title (c_title c), upd_text description (c_description c),
        upd_nullable estimatedTime (c_estimatedTime c),
        upd_nullable materialsNeeded (c_materialsNeeded c), userId with
  | Some t, Some d, Some e, Some m, None =>
      db <- get_db ;;
      put_db (Store (users db)
                (replace_course (Course (c_id c) t d e m (c_userId c)) (courses db))
                (next_user_id db) (next_course_id db))
  | Some t, Some d, Some e, Some m, Some v =>
      if match v with JNull => false | _ => true end then
        db <- get_db ;;
        let write := fun z =>
          put_db (Store (users db)
                    (replace_course (Course (c_id c) t d e m z) (courses db))
                    (next_user_id db) (next_course_id db)) in
        if userId_changed v (c_userId c) then fk_check db v write
        else write (c_userId c)
      else throw "SequelizeValidationError"
             (join_errors (update_errors title description estimatedTime
                             materialsNeeded userId))
  | _, _, _, _, _ =>
      throw "SequelizeValidationError"
        (join_errors (update_errors title description estimatedTime
                        materialsNeeded userId))
  end.

Definition course_destroy (c : course) : M unit :=
  db <- get_db ;;
  put_db (Store (users db) (filter (fun x => negb (c_id x =? c_id c)) (courses db))
            (next_user_id db) (next_course_id db)).

(** *** Assignment to an undeclared identifier

    [user = await User.create(...)] and [course = await Course.create(...)]
    assign identifiers declared nowhere.  In strict mode the assignment
    throws a [ReferenceError] once the right-hand side has been evaluated
    (the row is already written); in sloppy mode it creates a property of the
    global object that outlives the request.  [strict] is [true] for the file
    as given, which opens with ['use strict']. *)
Definition assign_global (strict : bool) (x : string) (v : json) : M unit :=
  fun s =>
    if strict && negb (existsb (fun kv => String.eqb (fst kv) x) (st_globals s))
    then (Throw "ReferenceError" (x ++ " is not defined"), s)
    else (Ok tt, State (st_db s) ((x, v) :: st_globals s)).

(** [bcryptjs.hashSync(s)] with the default salt rounds: a non-string
    secret is refused. *)
Definition hash_password `{NpmLibs} (v : option json) : M string :=
  match v with
  | Some (JStr s) => ret (hashSync s)
  | _ => throw "Error" ("Illegal arguments: " ++ js_typeof v ++ ", string")
  end.

(** ** Responses *)

(** The status and the JSON body of a response; [None] is no body. *)
Record response := MkResponse { status : Z; body : option json }.

(** [res.status(st).json(v)] (and [res.json(v)] with status 200): express's
    [res.send] drops the body of a 204 or a 304 response. *)
Definition Response (st : Z) (v : json) : response :=
  MkResponse st (if (st =? 204) || (st =? 304) then None else Some v).

Definition message (m : string) : json := JObj [("message", JStr m)].

Definition internal_error (name description : string) : response :=
  Response 500 (JObj [("message", JStr "Sorry, there was an error");
                      ("name", JStr name); ("description", JStr description)]).

Definition validation_failed (errs : list string) : response :=
  Response 400 (JObj [("errors", JArr (map JStr errs))]).

(** [asyncHandler(cb)]: any exception [cb] raises becomes a 500 response. *)
Definition asyncHandler (cb : M response) : state -> response * state :=
  fun s =>
    match cb s with
    | (Ok r, s') => (r, s')
    | (Throw n d, s') => (internal_error n d, s')
    end.

(** ** The authentication middleware [authenticateUser] *)

Inductive auth_result :=
| AuthReject (r : response)
| AuthNext (current : user).

(** [user.emailAddress === credentials.name]. *)
Definition email_is (name : string) (u : user) : bool :=
  String.eqb (u_emailAddress u) name.

Definition authenticateUser `{NpmLibs} (authorization : option string)
  (db : store) : auth_result :=
  match basic_auth authorization with
  | Some cred =>
      match find (email_is (cred_name cred)) (users db) with
      | Some matchedUser =>
          if compareSync (cred_pass cred) (u_password matchedUser)
          then AuthNext matchedUser
          else AuthReject (Response 403 (message
                 "Forbidden: The password did not match the user credential."))
      | None =>
          AuthReject (Response 403 (message
            "Forbidden: No user matches the credential provided."))
      end
  | None =>
      AuthReject (Response 401 (message
        "Unauthorized: No credentials provided in the WWW-authenticate header."))
  end.

(** ** The routes *)

Definition nonempty {A} (l : list A) : bool :=
  match l with [] => false | _ => true end.

(** [GET /] *)
Definition get_root : M response :=
  ret (Response 200 (message "Welcome to the API")).

(** [GET /users] (behind [authenticateUser]) *)
Definition get_users : M response :=
  us <- user_findAll ;;
  ret (Response 200 (JArr (map user_public_json us))).

(** [POST /users] (behind [userValidationChain]); [b] is [req.body] and
    [errs] is [validationResult(req)].  The object literal is evaluated
    first, so [hashSync] runs before [User.create]. *)
Definition post_users `{NpmLibs} (strict : bool) (b : list (string * json))
  (errs : list string) : M response :=
  if nonempty errs then ret (validation_failed errs)
  else
    try_catch
      (pw <- hash_password (obj_get "password" b) ;;
       u <- user_create (obj_get "firstName" b) (obj_get "lastName" b)
              (obj_get "emailAddress" b) pw ;;
       assign_global strict "user" (user_row_json u) ;;;
       ret (Response 201 (message "Successfully created new user.")))
      (fun n d => ret (internal_error n d)).

(** [GET /courses] *)
Definition get_courses : M response :=
  cs <- course_findAll ;;
  ret (Response 200 (JArr (map course_json cs))).

(** [GET /courses/:id] *)
Definition get_course (id : Z) : M response :=
  c <- course_findByPk id ;;
  match c with
  | Some c => ret (Response 200 (course_json c))
  | None => ret (Response 404 (message "There are no courses with that id."))
  end.

(** [POST /courses] (behind [authenticateUser] and [courseValidationChain]) *)
Definition post_courses (strict : bool) (b : list (string * json))
  (errs : list string) : M response :=
  if nonempty errs then ret (validation_failed errs)
  else
    try_catch
      (c <- course_create (obj_get "title" b) (obj_get "description" b)
              (obj_get "estimatedTime" b) (obj_get "materialsNeeded" b)
              (obj_get "userId" b) ;;
       assign_global strict "course" (course_json c) ;;;
       ret (Response 201 (message "Successfully created course")))
      (fun n d => ret (internal_error n d)).

(** [PUT /courses/:id] (behind [authenticateUser] and
    [courseValidationChain]): the lookup comes before the validation result
    is looked at. *)
Definition put_course (id : Z) (b : list (string * json)) (errs : list string)
  : M response :=
  c <- course_findByPk id ;;
  match c with
  | Some c =>
      if nonempty errs then ret (validation_failed errs)
      else
        try_catch
          (course_update c (obj_get "title" b) (obj_get "description" b)
             (obj_get "estimatedTime" b) (obj_get "materialsNeeded" b)
             (obj_get "userId" b) ;;;
           ret (Response 204
             (message "Thank you. The record was successfully updated.")))
          (fun n d => ret (internal_error n d))
  | None => ret (Response 404 (message "There are no courses with that id."))
  end.

(** [DELETE /courses/:id] (behind [authenticateUser]) *)
Definition delete_course (id : Z) : M response :=
  c <- course_findByPk id ;;
  match c with
  | Some c =>
      try_catch
        (course_destroy c ;;;
         ret (Response 204 (message "The record was deleted.")))
        (fun n d => ret (internal_error n d))
  | None => ret (Response 404 (message "That course id does not exist."))
  end.

(** ** The router *)

(** Does the route list [authenticationFunc] among its middleware? *)
Definition requires_auth (rt : route) : bool :=
  match rt with
  | GetUsers | PostCourses | PutCourse _ | DeleteCourse _ => true
  | _ => false
  end.

(** [authenticationFunc] in front of the rest of the route: a rejection is the
    response, [next()] runs the rest. *)
Definition with_auth `{NpmLibs} (r : request)
  (k : state -> response * state) : state -> response * state :=
  fun s =>
    match authenticateUser (rq_authorization r) (st_db s) with
    | AuthReject resp => (resp, s)
    | AuthNext _ => k s
    end.

(** The middleware of each route, in order: [authenticationFunc], the
    validation chains (which read the request, not the state), then the
    handler. *)
Definition serve `{NpmLibs} (strict : bool) (r : request)
  : state -> response * state :=
  let b := rq_body r in
  match rq_route r with
  | GetRoot => asyncHandler get_root
  | GetUsers => with_auth r (asyncHandler get_users)
  | PostUsers =>
      asyncHandler (post_users strict b (run_chains userValidationChain r))
  | GetCourses => asyncHandler get_courses
  | GetCourse id => asyncHandler (get_course id)
  | PostCourses =>
      with_auth r
        (asyncHandler (post_courses strict b (run_chains courseValidationChain r)))
  | PutCourse id =>
      with_auth r
        (asyncHandler (put_course id b (run_chains courseValidationChain r)))
  | DeleteCourse id => with_auth r (asyncHandler (delete_course id))
  end.

(** A sequence of requests served one after the other by one process. *)
Fixpoint run `{NpmLibs} (strict : bool) (rs : list request) (s : state)
  : list response * state :=
  match rs with
  | [] => ([], s)
  | r :: rs' =>
      let (resp, s') := serve strict r s in
      let (resps, s'') := run strict rs' s' in
      (resp :: resps, s'')
  end.

(** The same sequence where each request starts from the globals [g0], as if
    served by a fresh process sharing only the database. *)
Fixpoint run_fresh `{NpmLibs} (strict : bool) (g0 : globals)
  (rs : list request) (db : store) : list response * store :=
  match rs with
  | [] => ([], db)
  | r :: rs' =>
      let (resp, s') := serve strict r (State db g0) in
      let (resps, db'') := run_fresh strict g0 rs' (st_db s') in
      (resp :: resps, db'')
  end.

(** ** A concrete instance of the libraries, used to run examples *)

Definition demo_hash (s : string) : string := "$2a$10$" ++ s.

Definition demo_libs : NpmLibs := {|
  isEmail := contains_sub "@";
  hashSync := demo_hash;
  compareSync := fun p h => String.eqb h (demo_hash p)
|}.

(** A request with no headers, cookies or query string besides the
    [Authorization] header. *)
Definition req (rt : route) (authorization : option string)
  (b : list (string * json)) : request :=
  Request rt authorization [] [] [] b.

Definition empty_store : store := Store [] [] 1 1.

(** The header [Basic base64("ada@example.com:abc123")]. *)
Definition ada_header : option string :=
  Some "Basic YWRhQGV4YW1wbGUuY29tOmFiYzEyMw==".

(** A sign-up body with every field valid. *)
Definition ada_body : list (string * json) :=
  [("firstName", JStr "Ada"); ("lastName", JStr "Lovelace");
   ("emailAddress", JStr "ada@example.com"); ("password", JStr "abc123")].




(** A small school: Ada (password "abc123") and Grace; Grace owns course 1
    and Ada course 2. *)
Definition ada_user : user :=
  User 1 "Ada" "Lovelace" "ada@example.com" (demo_hash "abc123").

Definition grace_user (grace_pw : string) : user :=
  User 2 "Grace" "Hopper" "grace@example.com" (demo_hash grace_pw).

Definition grace_course : course :=
  Course 1 "Intro to Rocq" "Proofs" (Some "2 hours") (Some "A laptop") 2.

Definition ada_course : course :=
  Course 2 "Analytical Engines" "Notes" None None 1.

Definition school_store (grace_pw : string) : store :=
  Store [ada_user; grace_user grace_pw] [grace_course; ada_course] 3 3.

(** A valid course body naming Ada (user 1) as the owner. *)
Definition course_body : list (string * json) :=
  [("title", JStr "Intro to Rocq"); ("description", JStr "Proofs and programs");
   ("userId", JNum 1)].

(** The same with the owner given as the text "+1". *)
Definition course_body_plus : list (string * json) :=
  [("title", JStr "Intro to Rocq"); ("description", JStr "Proofs and programs");
   ("userId", JStr "+1")].

(** A course body with a non-string title and no description or userId. *)
Definition bad_course_body : list (string * json) := [("title", JNum 3)].

(** A valid course body naming user 9, whom no store here holds. *)
Definition stranger_course_body : list (string * json) :=
  [("title", JStr "Intro to Rocq"); ("description", JStr "Proofs and programs");
   ("userId", JNum 9)].

(** A sign-up body whose password is a number. *)
Definition numeric_password_body : list (string * json) :=
  [("firstName", JStr "Ada"); ("lastName", JStr "Lovelace");
   ("emailAddress", JStr "ada@example.com"); ("password", JNum 12345)].

(** ** Views of the validation engine used by the statements *)

(** The instances [check(f)] validates. *)
Definition field_instances (r : request) (f : string) : list (option json) :=
  select_fields r check_locations f.

(** The messages a custom validator contributes: one per failing
    instance. *)
Definition custom_failures (f : option json -> bool) (msg : string)
  (vs : list (option json)) : list string :=
  flat_map (fun v => if f v then [] else [msg]) vs.

(** The messages a standard validator contributes: one per instance whose
    [toString] fails. *)
Definition std_failures (f : string -> bool) (msg : string)
  (vs : list (option json)) : list string :=
  flat_map (fun v => if f (ev_toString v) then [] else [msg]) vs.

(** The messages a list of chain items declares. *)
Fixpoint item_messages (items : list vitem) : list string :=
  match items with
  | [] => []
  | VCustom _ m :: rest | VStandard _ m :: rest => m :: item_messages rest
  | VIf _ :: rest => item_messages rest
  end.

Definition msg_estimatedTime : string :=
  "If you provide information for estimatedTime, it should be in string format".
Definition msg_materialsNeeded : string :=
  "If you provide information about the materialsNeeded, it should be in string format".

(** ** Relational views used by the proofs *)

(** A computation is non-interfering for a relation [R] on states when
    related states give the same outcome and related final states. *)
Definition NI (R : state -> state -> Prop) {A} (m : M A) : Prop :=
  forall s1 s2, R s1 s2 ->
    fst (m s1) = fst (m s2) /\ R (snd (m s1)) (snd (m s2)).

(** The outcome of the authentication middleware, without the user row. *)
Definition auth_status (a : auth_result) : option response :=
  match a with
  | AuthReject r => Some r
  | AuthNext _ => None
  end.

Definition bound (x : string) (g : globals) : bool :=
  existsb (fun kv => String.eqb (fst kv) x) g.

(** What the router can observe of the global object: in strict mode,
    whether the two identifiers it assigns are bound; nothing in sloppy
    mode. *)
Definition vis (strict : bool) (g : globals) : bool * bool :=
  if strict then (bound "user" g, bound "course" g) else (false, false).

(** Same database, and globals showing the router [v0]. *)
Definition R_db (strict : bool) (v0 : bool * bool) (s1 s2 : state) : Prop :=
  st_db s1 = st_db s2 /\ vis strict (st_globals s1) = v0 /\
  vis strict (st_globals s2) = v0.

(** A user row without its password hash. *)
Definition strip (u : user) : Z * string * string * string :=
  (u_id u, u_firstName u, u_lastName u, u_emailAddress u).

(** Two databases that differ at most in the stored password hashes. *)
Definition same_but_pw (db1 db2 : store) : Prop :=
  map strip (users db1) = map strip (users db2) /\
  courses db1 = courses db2 /\
  next_user_id db1 = next_user_id db2 /\
  next_course_id db1 = next_course_id db2.

Definition R_pw (s1 s2 : state) : Prop :=
  same_but_pw (st_db s1) (st_db s2) /\ st_globals s1 = st_globals s2.

(** The public projection of a stripped user row. *)
Definition public_of_strip (p : Z * string * string * string) : json :=
  let '(i, f, l, e) := p in
  JObj [("id", JNum i); ("firstName", JStr f); ("lastName", JStr l);
        ("emailAddress", JStr e)].

(** The field names of a JSON object. *)
Definition obj_keys (v : json) : list string :=
  match v with JObj kvs => map fst kvs | _ => [] end.

(** ** Invariants of the store *)

(** The ids of the rows are distinct and below the auto-increment counters. *)
Definition wf_store (db : store) : Prop :=
  NoDup (map u_id (users db)) /\
  Forall (fun i => i < next_user_id db) (map u_id (users db)) /\
  NoDup (map c_id (courses db)) /\
  Forall (fun i => i < next_course_id db) (map c_id (courses db)).

(** Every course's owner is a stored user (the foreign key holds). *)
Definition owners_exist (db : store) : Prop :=
  Forall (fun c => user_exists db (c_userId c) = true) (courses db).

(** A property of the state that a computation keeps. *)
Definition Inv (P : state -> Prop) {A} (m : M A) : Prop :=
  forall s, P s -> P (snd (m s)).

(** The same for a request handler that answers. *)
Definition InvH (P : state -> Prop) (h : state -> response * state) : Prop :=
  forall s, P s -> P (snd (h s)).

(** The store invariants, read on a state. *)
Definition P_wf (s : state) : Prop := wf_store (st_db s).
Definition P_owners (s : state) : Prop := owners_exist (st_db s).

(** The users table is a given one. *)
Definition P_users_same (U0 : list user) (s : state) : Prop := users (st_db s) = U0.

(** ** The client side of Basic authentication

    What a client puts in the [Authorization] header:
    [Buffer.from(name + ':' + pass).toString('base64')], the standard
    alphabet with [=] padding, over the UTF-8 bytes of the text. *)
Definition b64_char (n : nat) : ascii :=
  if Nat.ltb n 26 then ascii_of_nat (65 + n)
  else if Nat.ltb n 52 then ascii_of_nat (97 + (n - 26))
  else if Nat.ltb n 62 then ascii_of_nat (48 + (n - 52))
  else if Nat.eqb n 62 then "+"%char
  else "/"%char.

Fixpoint b64_enc_bytes (l : list nat) : list ascii :=
  match l with
  | a :: b :: c :: rest =>
      [b64_char (a / 4); b64_char ((a mod 4) * 16 + b / 16);
       b64_char ((b mod 16) * 4 + c / 64); b64_char (c mod 64)]
        ++ b64_enc_bytes rest
  | [a; b] =>
      [b64_char (a / 4); b64_char ((a mod 4) * 16 + b / 16);
       b64_char ((b mod 16) * 4); "="%char]
  | [a] => [b64_char (a / 4); b64_char ((a mod 4) * 16); "="%char; "="%char]
  | [] => []
  end.

Definition encodeBase64 (s : string) : string :=
  string_of_list_ascii (b64_enc_bytes (bytes_of s)).

(** Well-formed UTF-8 (the Unicode Standard, Table 3-7): each character is
    [00..7F], [C2..DF 80..BF], [E0 A0..BF 80..BF], [E1..EC 80..BF 80..BF],
    [ED 80..9F 80..BF], [EE..EF 80..BF 80..BF], [F0 90..BF 80..BF 80..BF],
    [F1..F3 80..BF 80..BF 80..BF] or [F4 80..8F 80..BF 80..BF]. *)
Fixpoint utf8_wf (l : list nat) : bool :=
  match l with
  | [] => true
  | b :: t =>
      if Nat.ltb b 128 then utf8_wf t
      else match t with
      | [] => false
      | c :: t1 =>
          if byte_in 194 223 b && byte_in 128 191 c then utf8_wf t1
          else match t1 with
          | [] => false
          | d :: t2 =>
              if (Nat.eqb b 224 && byte_in 160 191 c ||
                  byte_in 225 236 b && byte_in 128 191 c ||
                  Nat.eqb b 237 && byte_in 128 159 c ||
                  byte_in 238 239 b && byte_in 128 191 c) && byte_in 128 191 d
              then utf8_wf t2
              else match t2 with
              | [] => false
              | e :: t3 =>
                  (Nat.eqb b 240 && byte_in 144 191 c ||
                   byte_in 241 243 b && byte_in 128 191 c ||
                   Nat.eqb b 244 && byte_in 128 143 c) &&
                  byte_in 128 191 d && byte_in 128 191 e && utf8_wf t3
              end
          end
      end
  end.

(** The string a body field holds, if it holds one. *)
Definition opt_string (v : option json) : option string :=
  match v with Some (JStr x) => Some x | _ => None end.

(** The password [cafe] with an acute e (U+00E9, in UTF-8 the bytes C3 A9). *)
Definition cafe : string :=
  "caf" ++ String (ascii_of_nat 195) (String (ascii_of_nat 169) EmptyString).

(** ** Generic non-interference of the monad *)

Lemma NI_ret R {A} (a : A) : NI R (ret a).
Proof. intros s1 s2 H; cbn; auto. Qed.

Lemma NI_throw R {A} n d : NI R (@throw A n d).
Proof. intros s1 s2 H; cbn; auto. Qed.

Lemma NI_bind R {A B} (m : M A) (k : A -> M B) :
  NI R m -> (forall a, NI R (k a)) -> NI R (bind m k).
Proof.
  intros Hm Hk s1 s2 H. unfold bind.
  destruct (Hm s1 s2 H) as [Ho HR].
  destruct (m s1) as [o1 s1'], (m s2) as [o2 s2']; cbn in *; subst o2.
  destruct o1 as [a | n d]; [apply Hk; exact HR | cbn; auto].
Qed.

Lemma NI_try_catch R {A} (m : M A) (h : string -> string -> M A) :
  NI R m -> (forall n d, NI R (h n d)) -> NI R (try_catch m h).
Proof.
  intros Hm Hh s1 s2 H. unfold try_catch.
  destruct (Hm s1 s2 H) as [Ho HR].
  destruct (m s1) as [o1 s1'], (m s2) as [o2 s2']; cbn in *; subst o2.
  destruct o1 as [a | n d]; [cbn; auto | apply Hh; exact HR].
Qed.

Lemma NI_hash_password `{NpmLibs} R v : NI R (hash_password v).
Proof.
  unfold hash_password. destruct v as [[]|]; try apply NI_throw. apply NI_ret.
Qed.

Lemma fk_check_NI R {A} db v (k : Z -> M A) :
  (forall z, NI R (k z)) -> NI R (fk_check db v k).
Proof.
  intros Hk. unfold fk_check, fk_error.
  destruct (sqlite_int v) as [z|]; [destruct (user_exists db z)|]; auto using NI_throw.
Qed.

Create HintDb ni.
#[local] Hint Resolve NI_ret NI_throw NI_hash_password : ni.

Ltac ni_step :=
  match goal with
  | |- NI _ (bind _ _) => apply NI_bind; [| intros ?]
  | |- NI _ (try_catch _ _) => apply NI_try_catch; [| intros ? ?]
  | |- NI _ (fk_check _ _ _) => apply fk_check_NI; intros ?
  | |- NI _ (if ?b then _ else _) => destruct b
  | |- NI _ (match ?x with _ => _ end) => destruct x
  | |- _ => solve [eauto with ni]
  end.
Ltac ni := repeat (cbv zeta; ni_step).

(** ** Non-interference of the routes, for any relation the persistence
    calls respect *)
Section RoutesNI.
Context {L : NpmLibs}.
Variable strict : bool.
Variable R : state -> state -> Prop.
Hypothesis get_users_NI : NI R get_users.
Hypothesis user_create_NI : forall a b c p, NI R (user_create a b c p).
Hypothesis course_findAll_NI : NI R course_findAll.
Hypothesis course_findByPk_NI : forall id, NI R (course_findByPk id).
Hypothesis course_create_NI : forall a b c d e, NI R (course_create a b c d e).
Hypothesis course_update_NI :
  forall x a b c d e, NI R (course_update x a b c d e).
Hypothesis course_destroy_NI : forall c, NI R (course_destroy c).
Hypothesis assign_user_NI : forall v, NI R (assign_global strict "user" v).
Hypothesis assign_course_NI :
  forall v, NI R (assign_global strict "course" v).

#[local] Hint Resolve get_users_NI user_create_NI course_findAll_NI
  course_findByPk_NI course_create_NI course_update_NI course_destroy_NI
  assign_user_NI assign_course_NI : ni.

Lemma asyncHandler_NI (cb : M response) s1 s2 :
  NI R cb -> R s1 s2 ->
  fst (asyncHandler cb s1) = fst (asyncHandler cb s2) /\
  R (snd (asyncHandler cb s1)) (snd (asyncHandler cb s2)).
Proof.
  intros Hcb H. unfold asyncHandler.
  destruct (Hcb s1 s2 H) as [Ho HR].
  destruct (cb s1) as [o1 s1'], (cb s2) as [o2 s2']; cbn in *; subst o2.
  destruct o1; cbn; auto.
Qed.

Lemma with_auth_NI r k s1 s2 :
  R s1 s2 ->
  auth_status (authenticateUser (rq_authorization r) (st_db s1)) =
  auth_status (authenticateUser (rq_authorization r) (st_db s2)) ->
  (fst (k s1) = fst (k s2) /\ R (snd (k s1)) (snd (k s2))) ->
  fst (with_auth r k s1) = fst (with_auth r k s2) /\
  R (snd (with_auth r k s1)) (snd (with_auth r k s2)).
Proof.
  intros H Ha Hk. unfold with_auth.
  destruct (authenticateUser _ (st_db s1)), (authenticateUser _ (st_db s2));
    cbn in Ha; try discriminate; auto.
  injection Ha as ->. cbn. auto.
Qed.

Lemma serve_NI r s1 s2 :
  R s1 s2 ->
  (requires_auth (rq_route r) = true ->
   auth_status (authenticateUser (rq_authorization r) (st_db s1)) =
   auth_status (authenticateUser (rq_authorization r) (st_db s2))) ->
  fst (serve strict r s1) = fst (serve strict r s2) /\
  R (snd (serve strict r s1)) (snd (serve strict r s2)).
Proof.
  intros H Ha. unfold serve.
  destruct (rq_route r) eqn:Er; cbn [requires_auth] in Ha;
    try (apply with_auth_NI; [exact H | apply Ha; reflexivity |]);
    apply asyncHandler_NI; auto;
    unfold get_root, post_users, get_courses, get_course, post_courses,
      put_course, delete_course; ni.
Qed.
End RoutesNI.

(** ** The persistence calls respect [R_db] *)
Section DbNI.
Variable strict : bool.
Variable v0 : bool * bool.

Lemma get_db_NI : NI (R_db strict v0) get_db.
Proof. intros s1 s2 H; cbn; destruct H as (Hdb & ?); rewrite Hdb; split; [|split]; auto. Qed.

Lemma put_db_NI db : NI (R_db strict v0) (put_db db).
Proof. intros s1 s2 (Hdb & H1 & H2); cbn; repeat split; auto. Qed.

#[local] Hint Resolve get_db_NI put_db_NI : ni.

Lemma vis_assign (st : bool) x v g :
  x = "user" \/ x = "course" -> (st = true -> bound x g = true) ->
  vis st ((x, v) :: g) = vis st g.
Proof.
  intros Hx Hb. unfold vis. destruct st; [|reflexivity].
  specialize (Hb eq_refl). unfold bound in *; cbn.
  destruct Hx as [-> | ->]; cbn; rewrite Hb; reflexivity.
Qed.

Lemma assign_global_NI x v :
  x = "user" \/ x = "course" -> NI (R_db strict v0) (assign_global strict x v).
Proof.
  intros Hx s1 s2 (Hdb & H1 & H2). unfold assign_global.
  assert (Hb : strict = true -> bound x (st_globals s1) = bound x (st_globals s2)).
  { intros Es. rewrite Es in H1, H2. unfold vis in H1, H2. rewrite <- H2 in H1.
    injection H1 as Hu Hc. destruct Hx as [-> | ->]; assumption. }
  fold (bound x (st_globals s1)). fold (bound x (st_globals s2)).
  destruct strict eqn:Es; cbn.
  - rewrite (Hb eq_refl).
    destruct (bound x (st_globals s2)) eqn:Eb; cbn.
    + split; [reflexivity|]. repeat split; auto.
      * cbn [st_globals]. rewrite vis_assign; auto.
      * cbn [st_globals]. rewrite vis_assign; auto.
    + split; [reflexivity|]. repeat split; auto.
  - split; [reflexivity|]. repeat split; auto; cbn [st_globals];
      rewrite vis_assign; auto; discriminate.
Qed.

Lemma serve_R_db `{NpmLibs} r s1 s2 :
  R_db strict v0 s1 s2 ->
  fst (serve strict r s1) = fst (serve strict r s2) /\
  R_db strict v0 (snd (serve strict r s1)) (snd (serve strict r s2)).
Proof.
  intros HR. apply serve_NI; auto.
  - unfold get_users, user_findAll. ni.
  - intros. unfold user_create. ni.
  - unfold course_findAll. ni.
  - intros. unfold course_findByPk. ni.
  - intros. unfold course_create, fk_error. ni.
  - intros. unfold course_update, fk_error. ni.
  - intros. unfold course_destroy. ni.
  - intros. apply assign_global_NI; auto.
  - intros. apply assign_global_NI; auto.
  - intros _. destruct HR as (-> & _). reflexivity.
Qed.
End DbNI.

Lemma run_agrees_with_fresh_runs `{NpmLibs} strict g0 :
  forall rs db g, vis strict g = vis strict g0 ->
  fst (run strict rs (State db g)) = fst (run_fresh strict g0 rs db).
Proof.
  induction rs as [|r rs IH]; intros db g Hg; cbn; [reflexivity|].
  destruct (serve_R_db strict (vis strict g0) r (State db g) (State db g0))
    as [Hr HR]; [repeat split; auto|].
  destruct (serve strict r (State db g)) as [resp [db' g']] eqn:E1.
  destruct (serve strict r (State db g0)) as [resp0 s0'] eqn:E2.
  cbn in Hr, HR. subst resp0. destruct HR as (Hdb & Hv1 & _).
  cbn in Hdb, Hv1.
  specialize (IH db' g' Hv1).
  destruct (run strict rs (State db' g')) as [resps s''] eqn:E3.
  rewrite <- Hdb.
  destruct (run_fresh strict g0 rs db') as [resps0 db''] eqn:E4.
  cbn in *. congruence.
Qed.

(** ** The persistence calls respect [R_pw] *)
Section PwNI.

Lemma public_rows_same l1 l2 :
  map strip l1 = map strip l2 ->
  map user_public_json l1 = map user_public_json l2.
Proof.
  assert (E : forall l, map user_public_json l = map public_of_strip (map strip l)).
  { intros l. rewrite map_map. apply map_ext. intros []. reflexivity. }
  intros Hs. rewrite !E, Hs. reflexivity.
Qed.

Lemma user_ids_same db1 db2 z :
  map strip (users db1) = map strip (users db2) ->
  user_exists db1 z = user_exists db2 z.
Proof.
  unfold user_exists.
  assert (E : forall l, existsb (fun u => u_id u =? z) l =
                        existsb (fun p => fst (fst (fst p)) =? z) (map strip l)).
  { induction l as [|u l IH]; simpl; [reflexivity|]. rewrite IH. reflexivity. }
  intros Hs. rewrite !E, Hs. reflexivity.
Qed.

Ltac open_pw :=
  let Hu := fresh "Hu" in let Hc := fresh "Hc" in
  let Hn := fresh "Hn" in let Hm := fresh "Hm" in
  intros [[? ? ? ?] ?] [[? ? ? ?] ?] [(Hu & Hc & Hn & Hm) ?];
  cbn in Hu, Hc, Hn, Hm; subst.

Lemma get_users_pw : NI R_pw get_users.
Proof.
  open_pw. cbn. rewrite (public_rows_same _ _ Hu).
  split; [reflexivity|]. repeat split; auto.
Qed.

Lemma user_create_pw a b c p : NI R_pw (user_create a b c p).
Proof.
  open_pw. unfold user_create.
  destruct (column_text a), (column_text b), (column_text c); cbn;
    (split; [reflexivity|]); repeat split; auto; cbn.
  rewrite !map_app, Hu. reflexivity.
Qed.

Lemma course_findAll_pw : NI R_pw course_findAll.
Proof. open_pw. cbn. split; [reflexivity|]. repeat split; auto. Qed.

Lemma course_findByPk_pw id : NI R_pw (course_findByPk id).
Proof. open_pw. cbn. split; [reflexivity|]. repeat split; auto. Qed.

Lemma fk_check_pw {A} db1 db2 v (k1 k2 : Z -> M A) s1 s2 :
  map strip (users db1) = map strip (users db2) ->
  (forall z, fst (k1 z s1) = fst (k2 z s2) /\ R_pw (snd (k1 z s1)) (snd (k2 z s2))) ->
  R_pw s1 s2 ->
  fst (fk_check db1 v k1 s1) = fst (fk_check db2 v k2 s2) /\
  R_pw (snd (fk_check db1 v k1 s1)) (snd (fk_check db2 v k2 s2)).
Proof.
  intros Hu Hk HR. unfold fk_check, fk_error.
  destruct (sqlite_int v) as [z|]; cbn; auto.
  rewrite (user_ids_same _ _ z Hu).
  destruct (user_exists db2 z); cbn; auto.
Qed.

Lemma course_create_pw a b c d e : NI R_pw (course_create a b c d e).
Proof.
  intros s1 s2 HR. pose proof HR as HR0.
  destruct s1 as [[? ? ? ?] ?], s2 as [[? ? ? ?] ?].
  destruct HR as [(Hu & Hc & Hn & Hm) Hg]; cbn in Hu, Hc, Hn, Hm, Hg; subst.
  unfold course_create.
  destruct (column_text a), (column_text b), (nullable_text c), (nullable_text d),
    e as [v|]; cbn [fst snd throw]; auto.
  destruct (match v with JNull => false | _ => true end); cbn [fst snd throw]; auto.
  unfold bind, get_db. cbn [fst snd st_db].
  apply fk_check_pw; auto.
  intros z. cbn. split; [reflexivity|]. repeat split; auto.
Qed.

Lemma course_update_pw x a b c d e : NI R_pw (course_update x a b c d e).
Proof.
  intros s1 s2 HR. pose proof HR as HR0.
  destruct s1 as [[? ? ? ?] ?], s2 as [[? ? ? ?] ?].
  destruct HR as [(Hu & Hc & Hn & Hm) Hg]; cbn in Hu, Hc, Hn, Hm, Hg; subst.
  unfold course_update.
  destruct (upd_text a (c_title x)), (upd_text b (c_description x)),
    (upd_nullable c (c_estimatedTime x)), (upd_nullable d (c_materialsNeeded x)),
    e as [v|]; cbn [fst snd throw]; auto.
  - destruct (match v with JNull => false | _ => true end); cbn [fst snd throw]; auto.
    unfold bind, get_db. cbn [fst snd st_db]. cbv zeta.
    destruct (userId_changed v (c_userId x)).
    + apply fk_check_pw; auto.
      intros z. cbn. split; [reflexivity|]. repeat split; auto.
    + cbn. split; [reflexivity|]. repeat split; auto.
  - unfold bind, get_db. cbn. split; [reflexivity|]. repeat split; auto.
Qed.

Lemma course_destroy_pw c : NI R_pw (course_destroy c).
Proof. open_pw. cbn. split; [reflexivity|]. repeat split; auto. Qed.

Lemma assign_global_pw strict x v : NI R_pw (assign_global strict x v).
Proof.
  intros [db1 g1] [db2 g2] [Hs Hg]; cbn in Hs, Hg; subst g2.
  unfold assign_global; cbn.
  destruct (_ && _); cbn; split; auto; split; auto.
Qed.

Lemma serve_R_pw `{NpmLibs} strict r s1 s2 :
  R_pw s1 s2 ->
  (requires_auth (rq_route r) = true ->
   auth_status (authenticateUser (rq_authorization r) (st_db s1)) =
   auth_status (authenticateUser (rq_authorization r) (st_db s2))) ->
  fst (serve strict r s1) = fst (serve strict r s2).
Proof.
  intros HR Ha. apply (serve_NI strict R_pw); auto using get_users_pw,
    user_create_pw, course_findAll_pw, course_findByPk_pw, course_create_pw,
    course_update_pw, course_destroy_pw, assign_global_pw.
Qed.
End PwNI.

(** ** Lemmas on the validation chains *)

Lemma app_nil_iff {A} (l1 l2 : list A) : (l1 ++ l2)%list = [] <-> l1 = [] /\ l2 = [].
Proof. split; [apply app_eq_nil | intros [-> ->]; reflexivity]. Qed.

Lemma custom_failures_nil (f : option json -> bool) m vs :
  custom_failures f m vs = [] <-> Forall (fun v => f v = true) vs.
Proof.
  unfold custom_failures. induction vs as [|v vs IH]; cbn; [split; auto|].
  rewrite app_nil_iff, IH, Forall_cons_iff.
  destruct (f v); split; intros [H1 H2]; split; auto; discriminate.
Qed.

Lemma std_failures_nil (f : string -> bool) m vs :
  std_failures f m vs = [] <-> Forall (fun v => f (ev_toString v) = true) vs.
Proof.
  unfold std_failures. induction vs as [|v vs IH]; cbn; [split; auto|].
  rewrite app_nil_iff, IH, Forall_cons_iff.
  destruct (f (ev_toString v)); split; intros [H1 H2]; split; auto; discriminate.
Qed.

(** The user chains, item by item. *)
Lemma user_chains_eq `{NpmLibs} r :
  run_chains userValidationChain r = (
    custom_failures exists_falsy
      "You must provide a first name for the user using the key firstName"
      (field_instances r "firstName") ++
    std_failures isAlpha "firstName must be a string, with only alpha characters"
      (field_instances r "firstName") ++
    custom_failures exists_falsy
      "You must provide a last name for the user using the key lastName"
      (field_instances r "lastName") ++
    std_failures isAlpha "lastName must be a string, with only alpha characters"
      (field_instances r "lastName") ++
    custom_failures exists_falsy
      "You must provide an email address for the user using the key emailAddress"
      (field_instances r "emailAddress") ++
    std_failures isEmail "You must provide a valid email address"
      (field_instances r "emailAddress") ++
    custom_failures exists_falsy
      "You must provide a password for the user using the key password"
      (field_instances r "password"))%list.
Proof.
  unfold run_chains, userValidationChain.
  cbn [flat_map ch_field ch_items ch_locations run_items].
  unfold field_instances, custom_failures, std_failures.
  rewrite <- ?app_assoc, ?app_nil_r. reflexivity.
Qed.

(** The course chains, item by item; estimatedTime and materialsNeeded are
    read from the body alone, behind their [.if(exists)] guard. *)
Lemma course_chains_eq r :
  run_chains courseValidationChain r = (
    custom_failures exists_falsy
      "You must provide a title for the course with the key title"
      (field_instances r "title") ++
    custom_failures is_string "The title must be a string"
      (field_instances r "title") ++
    custom_failures exists_falsy
      "You must provide a description for the course with the key description"
      (field_instances r "description") ++
    custom_failures is_string "The description must be a string (it is a text field)"
      (field_instances r "description") ++
    custom_failures is_string msg_estimatedTime
      (filter exists_plain [obj_get "estimatedTime" (rq_body r)]) ++
    custom_failures is_string msg_materialsNeeded
      (filter exists_plain [obj_get "materialsNeeded" (rq_body r)]) ++
    custom_failures exists_falsy
      "You must provide the id of the user this course belongs to"
      (field_instances r "userId") ++
    std_failures isInt_no_leading_zeroes "You must provide a valid userId"
      (field_instances r "userId"))%list.
Proof.
  unfold run_chains, courseValidationChain.
  cbn [flat_map ch_field ch_items ch_locations run_items].
  unfold field_instances, custom_failures, std_failures, msg_estimatedTime,
    msg_materialsNeeded.
  rewrite <- ?app_assoc, ?app_nil_r. reflexivity.
Qed.

(** Among several instances, one that holds a value is validated. *)
Lemma select_keeps_defined (insts : list (option json)) v :
  In v insts -> exists_plain v = true ->
  In v (match filter exists_plain insts with [] => firstn 1 insts | vs => vs end).
Proof.
  intros Hin He. assert (Hf : In v (filter exists_plain insts)) by
    (apply filter_In; auto).
  destruct (filter exists_plain insts); [contradiction | exact Hf].
Qed.

Lemma in_check_locations l : In l check_locations.
Proof. destruct l; cbn; tauto. Qed.

(** A value of the body is one of the instances [check(f)] validates. *)
Lemma body_value_checked r f x :
  obj_get f (rq_body r) = Some x -> In (Some x) (field_instances r f).
Proof.
  intros Hx. unfold field_instances, select_fields. cbv zeta.
  apply select_keeps_defined; [|reflexivity].
  apply in_map_iff. exists LBody. split; [exact Hx | apply in_check_locations].
Qed.



Lemma run_items_messages items vs x :
  In x (run_items items vs) -> In x (item_messages items).
Proof.
  revert vs. induction items as [|[f m | f m | c] rest IH]; intros vs; cbn; auto.
  - rewrite in_app_iff, in_flat_map. intros [(y & _ & Hx) | Hx]; [|right; eauto].
    destruct (f y); cbn in Hx; [contradiction | tauto].
  - rewrite in_app_iff, in_flat_map. intros [(y & _ & Hx) | Hx]; [|right; eauto].
    destruct (f _); cbn in Hx; [contradiction | tauto].
  - apply IH.
Qed.

Lemma count_run_items_undeclared items vs x :
  ~ In x (item_messages items) -> count_occ string_dec (run_items items vs) x = 0%nat.
Proof.
  intros Hx. apply count_occ_not_In. intros Hin. apply Hx.
  eapply run_items_messages; eauto.
Qed.

(** Under the course chains, a body value of title, description,
    estimatedTime or materialsNeeded is a string. *)
Lemma course_body_strings r :
  run_chains courseValidationChain r = [] ->
  (forall f, In f ["title"; "description"; "estimatedTime"; "materialsNeeded"] ->
   forall x, obj_get f (rq_body r) = Some x -> exists t, x = JStr t).
Proof.
  rewrite course_chains_eq. rewrite !app_nil_iff, !custom_failures_nil.
  intros (_ & Ht & _ & Hd & He & Hm & _) f Hf x Hx.
  assert (Hs : is_string (Some x) = true).
  { destruct Hf as [<- | [<- | [<- | [<- | []]]]].
    - exact (proj1 (Forall_forall _ _) Ht _ (body_value_checked _ _ _ Hx)).
    - exact (proj1 (Forall_forall _ _) Hd _ (body_value_checked _ _ _ Hx)).
    - rewrite Hx in He. cbn in He. inversion He; assumption.
    - rewrite Hx in Hm. cbn in Hm. inversion Hm; assumption. }
  destruct x; try discriminate. eauto.
Qed.

(** ** Lemmas on the routes *)



(** What a [POST /users] that passes validation, with a string password and
    first name, last name and email that the model stores as text, does to
    the state: the row is appended (in strict mode the ReferenceError comes
    after the write), and the global [user] is bound to it unless strict
    mode refuses the assignment. *)
Lemma post_users_effect `{NpmLibs} strict r s f l e pw :
  rq_route r = PostUsers ->
  run_chains userValidationChain r = [] ->
  column_text (obj_get "firstName" (rq_body r)) = Some f ->
  column_text (obj_get "lastName" (rq_body r)) = Some l ->
  column_text (obj_get "emailAddress" (rq_body r)) = Some e ->
  obj_get "password" (rq_body r) = Some (JStr pw) ->
  let u := User (next_user_id (st_db s)) f l e (hashSync pw) in
  let db' := Store (users (st_db s) ++ [u])%list (courses (st_db s))
               (next_user_id (st_db s) + 1) (next_course_id (st_db s)) in
  serve strict r s =
  if strict && negb (bound "user" (st_globals s))
  then (internal_error "ReferenceError" "user is not defined",
        State db' (st_globals s))
  else (Response 201 (message "Successfully created new user."),
        State db' (("user", user_row_json u) :: st_globals s)).
Proof.
  intros Hr Hv Hf Hl He Hpw u db'.
  unfold serve, asyncHandler, post_users. rewrite Hr, Hv. cbn [nonempty].
  unfold try_catch, hash_password, user_create, assign_global.
  rewrite Hpw, Hf, Hl, He. unfold bind, put_db, get_db, ret. cbv beta iota zeta.
  cbn [st_globals st_db]. unfold bound.
  destruct (strict && _); reflexivity.
Qed.



Lemma find_replace_course id c c' cs :
  find (fun x => c_id x =? id) cs = Some c -> c_id c' = c_id c ->
  find (fun x => c_id x =? id) (replace_course c' cs) = Some c'.
Proof.
  intros Hf Hid. pose proof (find_some _ _ Hf) as [_ Hc].
  apply Z.eqb_eq in Hc. subst id. unfold replace_course. rewrite Hid.
  induction cs as [|x cs IH]; cbn in *; [discriminate|].
  destruct (c_id x =? c_id c) eqn:Ex; cbn.
  - rewrite Hid, Z.eqb_refl. reflexivity.
  - rewrite Ex. apply IH, Hf.
Qed.

Lemma find_c_id {id c} cs :
  find (fun x => c_id x =? id) cs = Some c -> c_id c = id.
Proof. intros Hf. apply find_some in Hf as [_ Hc]. apply Z.eqb_eq, Hc. Qed.

Lemma fk_check_ok {A} db v z (k : Z -> M A) :
  sqlite_int v = Some z -> user_exists db z = true -> fk_check db v k = k z.
Proof. intros Hz Hex. unfold fk_check. rewrite Hz, Hex. reflexivity. Qed.

Lemma fk_check_fails {A} db v (k : Z -> M A) :
  (forall z, sqlite_int v = Some z -> user_exists db z = false) ->
  fk_check db v k = fk_error.
Proof.
  intros Hz. unfold fk_check. destruct (sqlite_int v) as [z|]; [|reflexivity].
  rewrite (Hz z eq_refl). reflexivity.
Qed.

Lemma sqlite_int_not_null v z : sqlite_int v = Some z ->
  match v with JNull => false | _ => true end = true.
Proof. destruct v; cbn; congruence. Qed.

(** An unchanged [userId] names the stored owner. *)
Lemma unchanged_userId v z old :
  sqlite_int v = Some z -> userId_changed v old = false -> z = old.
Proof.
  destruct v; cbn; try discriminate.
  intros Hz Hc. destruct (int64 z0); [|discriminate].
  injection Hz as <-. apply negb_false_iff, Z.eqb_eq in Hc. exact Hc.
Qed.

(** The values the update writes for fields the body may omit. *)
Lemma upd_text_string v old :
  (forall x, v = Some x -> exists t, x = JStr t) ->
  exists t, upd_text v old = Some t /\
    (v = Some (JStr t) \/ v = None /\ t = old).
Proof.
  intros Hv. destruct v as [x|].
  - destruct (Hv x eq_refl) as [t ->]. exists t. auto.
  - exists old. auto.
Qed.

Lemma upd_nullable_string v old :
  (forall x, v = Some x -> exists t, x = JStr t) ->
  exists e, upd_nullable v old = Some e /\
    ((exists t, v = Some (JStr t) /\ e = Some t) \/ v = None /\ e = old).
Proof.
  intros Hv. destruct v as [x|].
  - destruct (Hv x eq_refl) as [t ->]. exists (Some t). split; [reflexivity|].
    left. eauto.
  - exists old. auto.
Qed.

(** The effect of a successful [PUT /courses/:id]. *)
Lemma put_course_effect `{NpmLibs} strict r id s u c v z :
  rq_route r = PutCourse id ->
  authenticateUser (rq_authorization r) (st_db s) = AuthNext u ->
  find (fun x => c_id x =? id) (courses (st_db s)) = Some c ->
  run_chains courseValidationChain r = [] ->
  obj_get "userId" (rq_body r) = Some v -> sqlite_int v = Some z ->
  (userId_changed v (c_userId c) = true -> user_exists (st_db s) z = true) ->
  exists t d e m,
    (obj_get "title" (rq_body r) = Some (JStr t) \/
     obj_get "title" (rq_body r) = None /\ t = c_title c) /\
    (obj_get "description" (rq_body r) = Some (JStr d) \/
     obj_get "description" (rq_body r) = None /\ d = c_description c) /\
    ((exists x, obj_get "estimatedTime" (rq_body r) = Some (JStr x) /\ e = Some x) \/
     obj_get "estimatedTime" (rq_body r) = None /\ e = c_estimatedTime c) /\
    ((exists x, obj_get "materialsNeeded" (rq_body r) = Some (JStr x) /\ m = Some x) \/
     obj_get "materialsNeeded" (rq_body r) = None /\ m = c_materialsNeeded c) /\
    serve strict r s =
    (MkResponse 204 None,
     State (Store (users (st_db s))
              (replace_course (Course (c_id c) t d e m z) (courses (st_db s)))
              (next_user_id (st_db s)) (next_course_id (st_db s)))
           (st_globals s)).
Proof.
  intros Hr Hauth Hf Hv Hu Hz Hex.
  pose proof (course_body_strings r Hv) as Hs.
  destruct (upd_text_string (obj_get "title" (rq_body r)) (c_title c)
              (Hs "title" ltac:(cbn; tauto))) as (t & Ht & Ht').
  destruct (upd_text_string (obj_get "description" (rq_body r)) (c_description c)
              (Hs "description" ltac:(cbn; tauto))) as (d & Hd & Hd').
  destruct (upd_nullable_string (obj_get "estimatedTime" (rq_body r)) (c_estimatedTime c)
              (Hs "estimatedTime" ltac:(cbn; tauto))) as (e & He & He').
  destruct (upd_nullable_string (obj_get "materialsNeeded" (rq_body r))
              (c_materialsNeeded c)
              (Hs "materialsNeeded" ltac:(cbn; tauto))) as (m & Hm & Hm').
  exists t, d, e, m. do 4 (split; [assumption|]).
  unfold serve, with_auth. rewrite Hr, Hauth, Hv.
  unfold asyncHandler, put_course, course_findByPk, get_db, ret, bind.
  cbv beta iota zeta. rewrite Hf. unfold nonempty.
  unfold try_catch, course_update. rewrite Ht, Hd, He, Hm, Hu.
  rewrite (sqlite_int_not_null v z Hz). unfold get_db, ret, bind. cbv beta iota zeta.
  destruct (userId_changed v (c_userId c)) eqn:Ec.
  - rewrite (fk_check_ok _ v z _ Hz (Hex eq_refl)). reflexivity.
  - rewrite <- (unchanged_userId v z (c_userId c) Hz Ec). reflexivity.
Qed.

(** ** The claims *)

(** C9: the router keeps no process state that reaches a later response.
    The only process state it writes is the global object (the undeclared
    [user] and [course] of the create routes).  For every sequence of
    requests served by one process, in strict or sloppy mode, the responses
    are those obtained when every request starts again from the initial
    globals: each response is a function of its request and of the database
    left by the previous requests. *)
Theorem responses_independent_of_process_globals `{NpmLibs} strict g0 rs db :
  fst (run strict rs (State db g0)) = fst (run_fresh strict g0 rs db).
Proof. apply run_agrees_with_fresh_runs. reflexivity. Qed.

(** C4: the stored password hash never reaches a response.  Two databases
    that differ only in the users' password hashes give the same response to
    every request (for a route behind the authentication middleware, as long
    as the middleware takes the same decision on both: that decision is the
    only thing the hash influences); and an authenticated [GET /users]
    answers each user row projected to exactly the fields id, firstName,
    lastName and emailAddress.  The shape of a serialized course follows the
    spec (its model file is not under src/). *)
Theorem password_hash_never_serialized `{NpmLibs} strict r db1 db2 g :
  same_but_pw db1 db2 ->
  (requires_auth (rq_route r) = true ->
   auth_status (authenticateUser (rq_authorization r) db1) =
   auth_status (authenticateUser (rq_authorization r) db2)) ->
  fst (serve strict r (State db1 g)) = fst (serve strict r (State db2 g)) /\
  (forall r' u, rq_route r' = GetUsers ->
     authenticateUser (rq_authorization r') db1 = AuthNext u ->
     fst (serve strict r' (State db1 g)) =
     Response 200 (JArr (map user_public_json (users db1)))) /\
  (forall u, obj_keys (user_public_json u) =
             ["id"; "firstName"; "lastName"; "emailAddress"]).
Proof.
  intros Hs Ha. split; [|split].
  - apply serve_R_pw; [split; auto | exact Ha].
  - intros r' u Hr Hu. unfold serve, with_auth. rewrite Hr.
    cbn [st_db]. rewrite Hu. reflexivity.
  - reflexivity.
Qed.

(** C1: for [PUT /courses/:id] by an authenticated caller, an id that
    resolves to no course gives 404 and leaves the state as it was, whatever
    the request carries and whatever its validation messages; the validation
    messages are answered (400, state unchanged) only when the course
    exists. *)
Theorem put_course_existence_before_validation `{NpmLibs} strict r id s u :
  rq_route r = PutCourse id ->
  authenticateUser (rq_authorization r) (st_db s) = AuthNext u ->
  (find (fun c => c_id c =? id) (courses (st_db s)) = None ->
   serve strict r s =
   (Response 404 (message "There are no courses with that id."), s)) /\
  (forall c, find (fun c => c_id c =? id) (courses (st_db s)) = Some c ->
   nonempty (run_chains courseValidationChain r) = true ->
   serve strict r s =
   (validation_failed (run_chains courseValidationChain r), s)).
Proof.
  intros Hr Hu. unfold serve, with_auth. rewrite Hr, Hu. split.
  - intros Hf. unfold asyncHandler, put_course, bind, course_findByPk, get_db.
    cbn. rewrite Hf. reflexivity.
  - intros c Hf He. unfold asyncHandler, put_course, bind, course_findByPk, get_db.
    destruct (run_chains courseValidationChain r) as [|e es]; [discriminate|].
    cbn. rewrite Hf. reflexivity.
Qed.

(** C2: the authentication middleware.  No [Authorization] header, or one
    [basic-auth] cannot parse, gives 401; a parsed name that matches no
    stored email address gives 403; a name whose first matching user does
    not verify the password gives 403; the middleware lets the request
    through only for a parsed pair whose first matching user verifies it;
    and on every route behind it a rejection is the response, with the
    state unchanged. *)
Theorem authentication_outcomes `{NpmLibs} hdr db :
  authenticateUser None db = AuthReject (Response 401 (message
    "Unauthorized: No credentials provided in the WWW-authenticate header.")) /\
  (basic_auth hdr = None ->
   authenticateUser hdr db = AuthReject (Response 401 (message
    "Unauthorized: No credentials provided in the WWW-authenticate header."))) /\
  (forall cred, basic_auth hdr = Some cred ->
   find (email_is (cred_name cred)) (users db) = None ->
   authenticateUser hdr db = AuthReject (Response 403 (message
    "Forbidden: No user matches the credential provided."))) /\
  (forall cred u, basic_auth hdr = Some cred ->
   find (email_is (cred_name cred)) (users db) = Some u ->
   compareSync (cred_pass cred) (u_password u) = false ->
   authenticateUser hdr db = AuthReject (Response 403 (message
    "Forbidden: The password did not match the user credential."))) /\
  (forall u, authenticateUser hdr db = AuthNext u ->
   exists cred, basic_auth hdr = Some cred /\
     find (email_is (cred_name cred)) (users db) = Some u /\
     compareSync (cred_pass cred) (u_password u) = true) /\
  (forall strict r s resp,
   rq_authorization r = hdr -> st_db s = db ->
   requires_auth (rq_route r) = true ->
   authenticateUser hdr db = AuthReject resp ->
   serve strict r s = (resp, s)).
Proof.
  split; [reflexivity|]. unfold authenticateUser.
  split; [intros -> ; reflexivity|].
  split; [intros cred -> -> ; reflexivity|].
  split; [intros cred u -> -> -> ; reflexivity|].
  split.
  - intros u Hu. destruct (basic_auth hdr) as [cred|]; [|discriminate].
    destruct (find _ _) as [m|] eqn:Ef; [|discriminate].
    destruct (compareSync _ _) eqn:Ec; [|discriminate].
    injection Hu as <-. eauto.
  - intros strict r s resp <- <- Hr Hrej.
    fold (authenticateUser (rq_authorization r) (st_db s)) in Hrej.
    unfold serve. destruct (rq_route r); try discriminate;
      unfold with_auth; rewrite Hrej; reflexivity.
Qed.







(** C8: in a course request, an absent body estimatedTime contributes no
    message, a present non-string one contributes exactly one (and a string
    none); the same for materialsNeeded. *)
Theorem optional_course_fields r :
  count_occ string_dec (run_chains courseValidationChain r) msg_estimatedTime =
  match obj_get "estimatedTime" (rq_body r) with
  | None | Some (JStr _) => 0%nat
  | Some _ => 1%nat
  end /\
  count_occ string_dec (run_chains courseValidationChain r) msg_materialsNeeded =
  match obj_get "materialsNeeded" (rq_body r) with
  | None | Some (JStr _) => 0%nat
  | Some _ => 1%nat
  end.
Proof.
  unfold run_chains, courseValidationChain.
  cbn [flat_map ch_field ch_items ch_locations]. rewrite !count_occ_app.
  repeat match goal with
         | |- context [count_occ _ (run_items ?it ?v) ?m] =>
             rewrite (count_run_items_undeclared it v m)
               by (vm_compute; intuition discriminate)
         end.
  cbn [select_fields map loc_get].
  split.
  - destruct (obj_get "estimatedTime" (rq_body r)) as [[]|]; cbn;
      destruct (obj_get "materialsNeeded" (rq_body r)) as [[]|]; reflexivity.
  - destruct (obj_get "materialsNeeded" (rq_body r)) as [[]|]; cbn;
      destruct (obj_get "estimatedTime" (rq_body r)) as [[]|]; reflexivity.
Qed.

(** C10: a [PUT /courses/:id] by any authenticated caller, on an existing
    course, with a request that passes validation and a body [userId] that
    SQLite stores as the integer [z] of a stored user, is answered 204 with
    no body and stores [z] as the course's owner, whoever the caller and
    whoever the previous owner; title, description, estimatedTime and
    materialsNeeded take the body's strings (a field absent from the body
    keeps its stored value). *)
Theorem put_course_reassigns_owner `{NpmLibs} strict r id s u c v z :
  rq_route r = PutCourse id ->
  authenticateUser (rq_authorization r) (st_db s) = AuthNext u ->
  find (fun x => c_id x =? id) (courses (st_db s)) = Some c ->
  run_chains courseValidationChain r = [] ->
  obj_get "userId" (rq_body r) = Some v -> sqlite_int v = Some z ->
  user_exists (st_db s) z = true ->
  fst (serve strict r s) = MkResponse 204 None /\
  exists t d e m,
    find (fun x => c_id x =? id) (courses (st_db (snd (serve strict r s)))) =
      Some (Course (c_id c) t d e m z) /\
    (obj_get "title" (rq_body r) = Some (JStr t) \/
     obj_get "title" (rq_body r) = None /\ t = c_title c) /\
    (obj_get "description" (rq_body r) = Some (JStr d) \/
     obj_get "description" (rq_body r) = None /\ d = c_description c) /\
    ((exists x, obj_get "estimatedTime" (rq_body r) = Some (JStr x) /\ e = Some x) \/
     obj_get "estimatedTime" (rq_body r) = None /\ e = c_estimatedTime c) /\
    ((exists x, obj_get "materialsNeeded" (rq_body r) = Some (JStr x) /\ m = Some x) \/
     obj_get "materialsNeeded" (rq_body r) = None /\ m = c_materialsNeeded c).
Proof.
  intros Hr Hauth Hf Hv Hu Hz Hex.
  destruct (put_course_effect strict r id s u c v z Hr Hauth Hf Hv Hu Hz (fun _ => Hex))
    as (t & d & e & m & Ht & Hd & He & Hm & Hs).
  rewrite Hs. split; [reflexivity|].
  exists t, d, e, m. split; [|auto].
  cbn [snd st_db courses]. apply find_replace_course with (c := c); [exact Hf | reflexivity].
Qed.

(** ** Instances of the claims on concrete requests *)

Lemma put_course_existence_before_validation_witness :
  @serve demo_libs true (req (PutCourse 7) ada_header bad_course_body)
    (State (school_store "cobol") []) =
  (Response 404 (message "There are no courses with that id."),
   State (school_store "cobol") []) /\
  @serve demo_libs true (req (PutCourse 1) ada_header bad_course_body)
    (State (school_store "cobol") []) =
  (validation_failed (run_chains courseValidationChain
                        (req (PutCourse 1) ada_header bad_course_body)),
   State (school_store "cobol") []).
Proof.
  assert (Ha : @authenticateUser demo_libs ada_header (school_store "cobol")
               = AuthNext ada_user) by (vm_compute; reflexivity).
  destruct (@put_course_existence_before_validation demo_libs true
              (req (PutCourse 7) ada_header bad_course_body) 7
              (State (school_store "cobol") []) ada_user eq_refl Ha)
    as [W1 _].
  destruct (@put_course_existence_before_validation demo_libs true
              (req (PutCourse 1) ada_header bad_course_body) 1
              (State (school_store "cobol") []) ada_user eq_refl Ha)
    as [_ W2].
  split.
  - apply W1. vm_compute. reflexivity.
  - apply (W2 grace_course); vm_compute; reflexivity.
Defined.

Lemma authentication_outcomes_witness :
  @authenticateUser demo_libs (Some "Basic YWRhQGV4YW1wbGUuY29tOmFiYzEyNA==")
    (school_store "cobol") =
  AuthReject (Response 403 (message
    "Forbidden: The password did not match the user credential.")).
Proof.
  destruct (@authentication_outcomes demo_libs
              (Some "Basic YWRhQGV4YW1wbGUuY29tOmFiYzEyNA==")
              (school_store "cobol")) as [_ [_ [_ [W _]]]].
  apply (W (Credentials "ada@example.com" "abc124") ada_user);
    vm_compute; reflexivity.
Defined.

Lemma password_hash_never_serialized_witness :
  fst (@serve demo_libs true (req GetUsers ada_header [])
         (State (school_store "cobol") [])) =
  fst (@serve demo_libs true (req GetUsers ada_header [])
         (State (school_store "fortran") [])) /\
  fst (@serve demo_libs true (req GetUsers ada_header [])
         (State (school_store "cobol") [])) =
  Response 200 (JArr (map user_public_json (users (school_store "cobol")))).
Proof.
  destruct (@password_hash_never_serialized demo_libs true
              (req GetUsers ada_header []) (school_store "cobol")
              (school_store "fortran") []) as [W1 [W2 _]].
  - vm_compute. repeat split.
  - intros _. vm_compute. reflexivity.
  - split; [exact W1|].
    apply (W2 (req GetUsers ada_header []) ada_user); [reflexivity|].
    vm_compute. reflexivity.
Defined.




Lemma put_course_reassigns_owner_witness :
  fst (@serve demo_libs true (req (PutCourse 1) ada_header course_body_plus)
         (State (school_store "cobol") [])) = MkResponse 204 None /\
  exists t d e m,
    find (fun x => c_id x =? 1)
      (courses (st_db (snd (@serve demo_libs true
         (req (PutCourse 1) ada_header course_body_plus)
         (State (school_store "cobol") []))))) =
      Some (Course 1 t d e m 1) /\
    (obj_get "title" course_body_plus = Some (JStr t) \/
     obj_get "title" course_body_plus = None /\ t = "Intro to Rocq") /\
    (obj_get "description" course_body_plus = Some (JStr d) \/
     obj_get "description" course_body_plus = None /\ d = "Proofs") /\
    ((exists x, obj_get "estimatedTime" course_body_plus = Some (JStr x) /\ e = Some x) \/
     obj_get "estimatedTime" course_body_plus = None /\ e = Some "2 hours") /\
    ((exists x, obj_get "materialsNeeded" course_body_plus = Some (JStr x) /\ m = Some x) \/
     obj_get "materialsNeeded" course_body_plus = None /\ m = Some "A laptop").
Proof.
  exact (@put_course_reassigns_owner demo_libs true
           (req (PutCourse 1) ada_header course_body_plus) 1
           (State (school_store "cobol") []) ada_user grace_course (JStr "+1") 1
           eq_refl ltac:(vm_compute; reflexivity) ltac:(vm_compute; reflexivity)
           ltac:(vm_compute; reflexivity) ltac:(vm_compute; reflexivity)
           ltac:(vm_compute; reflexivity) ltac:(vm_compute; reflexivity)).
Defined.

(** ** Beyond the claims *)

(** *** What each persistence call does to the state *)

Lemma fk_check_state {A} db v (k : Z -> M A) s :
  snd (fk_check db v k s) = s \/
  exists z, sqlite_int v = Some z /\ user_exists db z = true /\
            snd (fk_check db v k s) = snd (k z s).
Proof.
  unfold fk_check. destruct (sqlite_int v) as [z|]; [|left; reflexivity].
  destruct (user_exists db z) eqn:E; [right; eauto | left; reflexivity].
Qed.

Lemma user_create_state a b c p s :
  snd (user_create a b c p s) = s \/
  exists u, u_id u = next_user_id (st_db s) /\
    snd (user_create a b c p s) =
    State (Store (users (st_db s) ++ [u])%list (courses (st_db s))
             (next_user_id (st_db s) + 1) (next_course_id (st_db s))) (st_globals s).
Proof.
  unfold user_create.
  destruct (column_text a) as [f|], (column_text b) as [l|], (column_text c) as [e|];
    try (left; reflexivity).
  right. eexists. split; [|reflexivity]. reflexivity.
Qed.

Lemma course_create_state a b c d e s :
  snd (course_create a b c d e s) = s \/
  exists x, c_id x = next_course_id (st_db s) /\
    user_exists (st_db s) (c_userId x) = true /\
    snd (course_create a b c d e s) =
    State (Store (users (st_db s)) (courses (st_db s) ++ [x])%list
             (next_user_id (st_db s)) (next_course_id (st_db s) + 1)) (st_globals s).
Proof.
  unfold course_create.
  destruct (column_text a) as [t|], (column_text b) as [dd|], (nullable_text c) as [ee|],
    (nullable_text d) as [m|], e as [v|]; try (left; reflexivity).
  destruct (match v with JNull => false | _ => true end); [|left; reflexivity].
  unfold bind, get_db. cbv beta iota zeta.
  match goal with |- context [fk_check ?db ?v ?k ?s] =>
    destruct (fk_check_state db v k s) as [E | (z & Hz & Hex & E)]; rewrite E end;
    [left; reflexivity|].
  right. exists (Course (next_course_id (st_db s)) t dd ee m z).
  split; [reflexivity|]. split; [exact Hex | reflexivity].
Qed.

Lemma course_update_state x a b c d e s :
  snd (course_update x a b c d e s) = s \/
  exists x', c_id x' = c_id x /\
    (user_exists (st_db s) (c_userId x') = true \/ c_userId x' = c_userId x) /\
    snd (course_update x a b c d e s) =
    State (Store (users (st_db s)) (replace_course x' (courses (st_db s)))
             (next_user_id (st_db s)) (next_course_id (st_db s))) (st_globals s).
Proof.
  unfold course_update.
  destruct (upd_text a (c_title x)) as [t|], (upd_text b (c_description x)) as [dd|],
    (upd_nullable c (c_estimatedTime x)) as [ee|],
    (upd_nullable d (c_materialsNeeded x)) as [m|], e as [v|];
    try (left; reflexivity).
  - destruct (match v with JNull => false | _ => true end); [|left; reflexivity].
    unfold bind, get_db. cbv beta iota zeta.
    destruct (userId_changed v (c_userId x)).
    + match goal with |- context [fk_check ?db ?v ?k ?s] =>
        destruct (fk_check_state db v k s) as [E | (z & Hz & Hex & E)]; rewrite E end;
        [left; reflexivity|].
      right. exists (Course (c_id x) t dd ee m z).
      split; [reflexivity|]. split; [left; exact Hex | reflexivity].
    + right. exists (Course (c_id x) t dd ee m (c_userId x)).
      split; [reflexivity|]. split; [right; reflexivity | reflexivity].
  - right. exists (Course (c_id x) t dd ee m (c_userId x)).
    split; [reflexivity|]. split; [right; reflexivity | reflexivity].
Qed.

Lemma course_destroy_state x s :
  snd (course_destroy x s) =
  State (Store (users (st_db s))
           (filter (fun y => negb (c_id y =? c_id x)) (courses (st_db s)))
           (next_user_id (st_db s)) (next_course_id (st_db s))) (st_globals s).
Proof. reflexivity. Qed.

Lemma assign_global_db strict x v s :
  st_db (snd (assign_global strict x v s)) = st_db s.
Proof. unfold assign_global. destruct (_ && _); reflexivity. Qed.

(** *** Invariants through the monad *)

Lemma Inv_ret P {A} (a : A) : Inv P (ret a).
Proof. intros s H; exact H. Qed.

Lemma Inv_throw P {A} n d : Inv P (@throw A n d).
Proof. intros s H; exact H. Qed.

Lemma Inv_bind P {A B} (m : M A) (k : A -> M B) :
  Inv P m -> (forall a, Inv P (k a)) -> Inv P (bind m k).
Proof.
  intros Hm Hk s H. unfold bind. specialize (Hm s H).
  destruct (m s) as [[a | n d] s']; cbn in *; [apply Hk|]; exact Hm.
Qed.

Lemma Inv_try_catch P {A} (m : M A) (h : string -> string -> M A) :
  Inv P m -> (forall n d, Inv P (h n d)) -> Inv P (try_catch m h).
Proof.
  intros Hm Hh s H. unfold try_catch. specialize (Hm s H).
  destruct (m s) as [[a | n d] s']; cbn in *; [|apply Hh]; exact Hm.
Qed.

Lemma Inv_get_db P : Inv P get_db.
Proof. intros s H; exact H. Qed.

Lemma Inv_hash_password `{NpmLibs} P v : Inv P (hash_password v).
Proof. unfold hash_password. destruct v as [[]|]; try apply Inv_throw. apply Inv_ret. Qed.

Lemma Inv_fk_check P {A} db v (k : Z -> M A) :
  (forall z, Inv P (k z)) -> Inv P (fk_check db v k).
Proof.
  intros Hk. unfold fk_check, fk_error.
  destruct (sqlite_int v) as [z|]; [destruct (user_exists db z)|]; auto; apply Inv_throw.
Qed.

Lemma InvH_asyncHandler P (cb : M response) : Inv P cb -> InvH P (asyncHandler cb).
Proof.
  intros Hcb s H. unfold asyncHandler. specialize (Hcb s H).
  destruct (cb s) as [[r | n d] s']; exact Hcb.
Qed.

Lemma InvH_with_auth `{NpmLibs} P r k : InvH P k -> InvH P (with_auth r k).
Proof.
  intros Hk s Hs. unfold with_auth.
  destruct (authenticateUser _ _); [exact Hs | apply Hk, Hs].
Qed.

Create HintDb inv.
#[local] Hint Resolve Inv_ret Inv_throw Inv_get_db Inv_hash_password : inv.

Ltac inv_step :=
  match goal with
  | |- Inv _ (bind _ _) => apply Inv_bind; [| intros ?]
  | |- Inv _ (try_catch _ _) => apply Inv_try_catch; [| intros ? ?]
  | |- Inv _ (fk_check _ _ _) => apply Inv_fk_check; intros ?
  | |- Inv _ (if ?b then _ else _) => destruct b
  | |- Inv _ (match ?x with _ => _ end) => destruct x
  | |- _ => solve [eauto with inv]
  end.
Ltac inv := repeat (cbv zeta; inv_step).

(** The router keeps every property of the state that each persistence call,
    each global assignment and the update handler keep. *)
Section RoutesInv.
Context {L : NpmLibs}.
Variable strict : bool.
Variable P : state -> Prop.
Hypothesis user_create_Inv : forall a b c p, Inv P (user_create a b c p).
Hypothesis course_create_Inv : forall a b c d e, Inv P (course_create a b c d e).
Hypothesis put_course_Inv : forall id b errs, Inv P (put_course id b errs).
Hypothesis course_destroy_Inv : forall c, Inv P (course_destroy c).
Hypothesis assign_Inv : forall x v, Inv P (assign_global strict x v).

#[local] Hint Resolve user_create_Inv course_create_Inv put_course_Inv
  course_destroy_Inv assign_Inv : inv.

Lemma serve_Inv r : InvH P (serve strict r).
Proof.
  unfold serve. cbv zeta.
  destruct (rq_route r); try apply InvH_with_auth; apply InvH_asyncHandler;
    unfold get_root, get_users, user_findAll, post_users, get_courses,
      course_findAll, get_course, course_findByPk, post_courses,
      delete_course; inv.
Qed.

Lemma run_Inv rs : forall s, P s -> P (snd (run strict rs s)).
Proof.
  induction rs as [|r rs IH]; intros s Hs; cbn; [exact Hs|].
  pose proof (serve_Inv r s Hs) as Hs'.
  destruct (serve strict r s) as [resp s'] eqn:E1. cbn in Hs'.
  specialize (IH s' Hs').
  destruct (run strict rs s') as [resps s''] eqn:E2. exact IH.
Qed.
End RoutesInv.

(** *** Ids *)

Lemma NoDup_snoc {A} (l : list A) x : NoDup l -> ~ In x l -> NoDup (l ++ [x]).
Proof.
  induction l as [|y l IH]; intros Hl Hx; cbn.
  - constructor; [intros []|constructor].
  - inversion Hl; subst. constructor.
    + rewrite in_app_iff. intros [Hy | [Hy | []]]; [tauto|]. subst. apply Hx; left; reflexivity.
    + apply IH; auto. intros Hin; apply Hx; right; exact Hin.
Qed.

Lemma fresh_not_in (l : list Z) n : Forall (fun i => i < n) l -> ~ In n l.
Proof.
  intros Hl Hin. rewrite Forall_forall in Hl. specialize (Hl n Hin). lia.
Qed.

Lemma Forall_lt_snoc (l : list Z) n :
  Forall (fun i => i < n) l -> Forall (fun i => i < n + 1) (l ++ [n]).
Proof.
  intros Hl. apply Forall_app. split.
  - eapply Forall_impl; [|exact Hl]. cbn; intros; lia.
  - constructor; [lia | constructor].
Qed.

Lemma map_filter_NoDup {A B} (f : A -> B) (p : A -> bool) l :
  NoDup (map f l) -> NoDup (map f (filter p l)).
Proof.
  induction l as [|x l IH]; intros Hl; cbn; [constructor|].
  inversion Hl as [|? ? Hx Hl']; subst. destruct (p x); cbn; [|auto].
  constructor; [|auto]. intros Hin; apply Hx.
  apply in_map_iff in Hin as (y & Hy & Hin). apply filter_In in Hin as [Hin _].
  rewrite <- Hy. apply in_map, Hin.
Qed.

Lemma map_filter_Forall {A} (f : A -> Z) (p : A -> bool) l n :
  Forall (fun i => i < n) (map f l) -> Forall (fun i => i < n) (map f (filter p l)).
Proof.
  rewrite !Forall_forall. intros Hl i Hi. apply Hl.
  apply in_map_iff in Hi as (y & <- & Hin). apply filter_In in Hin as [Hin _].
  apply in_map, Hin.
Qed.

Lemma map_c_id_replace c' cs : map c_id (replace_course c' cs) = map c_id cs.
Proof.
  unfold replace_course. rewrite map_map. apply map_ext. intros x.
  destruct (c_id x =? c_id c') eqn:E; [apply Z.eqb_eq in E; auto | reflexivity].
Qed.

Lemma user_create_wf a b c p : Inv P_wf (user_create a b c p).
Proof.
  intros s Hw. destruct (user_create_state a b c p s) as [E | (u & Hu & E)];
    rewrite E; [exact Hw|].
  destruct Hw as (Hun & Hul & Hc & Hcl). unfold P_wf, wf_store; cbn.
  rewrite map_app; cbn. rewrite Hu. repeat split; auto.
  - apply NoDup_snoc; auto. apply fresh_not_in, Hul.
  - apply Forall_lt_snoc, Hul.
Qed.

Lemma course_create_wf a b c d e : Inv P_wf (course_create a b c d e).
Proof.
  intros s Hw. destruct (course_create_state a b c d e s) as [E | (x & Hx & _ & E)];
    rewrite E; [exact Hw|].
  destruct Hw as (Hun & Hul & Hc & Hcl). unfold P_wf, wf_store; cbn.
  rewrite map_app; cbn. rewrite Hx. repeat split; auto.
  - apply NoDup_snoc; auto. apply fresh_not_in, Hcl.
  - apply Forall_lt_snoc, Hcl.
Qed.

Lemma course_update_wf x a b c d e : Inv P_wf (course_update x a b c d e).
Proof.
  intros s Hw. destruct (course_update_state x a b c d e s) as [E | (x' & _ & _ & E)];
    rewrite E; [exact Hw|].
  destruct Hw as (Hun & Hul & Hc & Hcl). unfold P_wf, wf_store; cbn.
  rewrite map_c_id_replace. auto.
Qed.

Lemma put_course_wf id b errs : Inv P_wf (put_course id b errs).
Proof.
  unfold put_course, course_findByPk. inv. apply course_update_wf.
Qed.

Lemma course_destroy_wf x : Inv P_wf (course_destroy x).
Proof.
  intros s (Hun & Hul & Hc & Hcl). rewrite course_destroy_state.
  unfold P_wf, wf_store; cbn. repeat split; auto.
  - apply map_filter_NoDup, Hc.
  - apply map_filter_Forall, Hcl.
Qed.

Lemma assign_global_keeps_db (P : state -> Prop) strict x v :
  (forall s s', st_db s' = st_db s -> P s -> P s') -> Inv P (assign_global strict x v).
Proof. intros HP s Hs. apply (HP s); [apply assign_global_db | exact Hs]. Qed.

Lemma P_wf_db s s' : st_db s' = st_db s -> P_wf s -> P_wf s'.
Proof. unfold P_wf. intros ->. auto. Qed.

(** *** Owners *)

Lemma user_exists_app db us cs nu nc z :
  user_exists db z = true ->
  user_exists (Store (users db ++ us)%list cs nu nc) z = true.
Proof.
  unfold user_exists; cbn. rewrite existsb_app. intros ->. reflexivity.
Qed.

Lemma owners_exist_users db db' :
  users db' = users db -> owners_exist db ->
  Forall (fun c => user_exists db' (c_userId c) = true) (courses db).
Proof.
  intros Hu Ho. eapply Forall_impl; [|exact Ho]. intros c.
  unfold user_exists. rewrite Hu. auto.
Qed.

Lemma Forall_replace (P : course -> Prop) c' cs :
  Forall P cs -> P c' -> Forall P (replace_course c' cs).
Proof.
  intros Hcs Hc. unfold replace_course. apply Forall_map.
  eapply Forall_impl; [|exact Hcs]. intros x Hx. cbn.
  destruct (_ =? _); assumption.
Qed.

Lemma user_create_owners a b c p : Inv P_owners (user_create a b c p).
Proof.
  intros s Ho. destruct (user_create_state a b c p s) as [E | (u & _ & E)];
    rewrite E; [exact Ho|].
  unfold P_owners, owners_exist; cbn [st_db courses]. eapply Forall_impl; [|exact Ho].
  intros x Hx. exact (user_exists_app (st_db s) [u] (courses (st_db s)) _ _ _ Hx).
Qed.

Lemma course_create_owners a b c d e : Inv P_owners (course_create a b c d e).
Proof.
  intros s Ho. destruct (course_create_state a b c d e s) as [E | (x & _ & Hx & E)];
    rewrite E; [exact Ho|].
  unfold P_owners, owners_exist; cbn. apply Forall_app. split.
  - apply (owners_exist_users (st_db s)); [reflexivity | exact Ho].
  - constructor; [exact Hx | constructor].
Qed.

Lemma course_destroy_owners x : Inv P_owners (course_destroy x).
Proof.
  intros s Ho. rewrite course_destroy_state.
  unfold P_owners, owners_exist; cbn [st_db courses].
  pose proof (owners_exist_users (st_db s) (Store (users (st_db s))
    (filter (fun y => negb (c_id y =? c_id x)) (courses (st_db s)))
    (next_user_id (st_db s)) (next_course_id (st_db s))) eq_refl Ho) as Ho'.
  apply Forall_forall. intros y Hy. apply filter_In in Hy as [Hy _].
  exact (proj1 (Forall_forall _ _) Ho' y Hy).
Qed.

(** The update handler only updates a course it found in the store, so an
    owner it keeps is a stored user. *)
Lemma put_course_owners id b errs : Inv P_owners (put_course id b errs).
Proof.
  intros s Ho. unfold put_course, course_findByPk, bind, get_db, ret.
  cbv beta iota zeta.
  destruct (find (fun c => c_id c =? id) (courses (st_db s))) as [c|] eqn:Hf;
    [|exact Ho].
  destruct (nonempty errs); [exact Ho|].
  pose proof (course_update_state c (obj_get "title" b) (obj_get "description" b)
    (obj_get "estimatedTime" b) (obj_get "materialsNeeded" b) (obj_get "userId" b) s)
    as Hst.
  unfold try_catch. cbv beta iota zeta.
  destruct (course_update c (obj_get "title" b) (obj_get "description" b)
    (obj_get "estimatedTime" b) (obj_get "materialsNeeded" b) (obj_get "userId" b) s)
    as [o s'] eqn:Eu. cbn [snd] in Hst.
  assert (Ho' : P_owners s').
  { destruct Hst as [-> | (x' & _ & Hown & ->)]; [exact Ho|].
    unfold P_owners, owners_exist; cbn.
    apply Forall_replace.
    - apply (owners_exist_users (st_db s)); [reflexivity | exact Ho].
    - destruct Hown as [Hown | ->]; [exact Hown|].
      apply find_some in Hf as [Hin _].
      exact (proj1 (Forall_forall _ _) Ho c Hin). }
  destruct o; exact Ho'.
Qed.

Lemma P_owners_db s s' : st_db s' = st_db s -> P_owners s -> P_owners s'.
Proof. unfold P_owners. intros ->. auto. Qed.

(** *** The users table *)

Lemma course_create_users U0 a b c d e :
  Inv (P_users_same U0) (course_create a b c d e).
Proof.
  intros s Hs. destruct (course_create_state a b c d e s) as [E | (x & _ & _ & E)];
    rewrite E; exact Hs.
Qed.

Lemma course_update_users U0 x a b c d e :
  Inv (P_users_same U0) (course_update x a b c d e).
Proof.
  intros s Hs. destruct (course_update_state x a b c d e s) as [E | (x' & _ & _ & E)];
    rewrite E; exact Hs.
Qed.

Lemma course_destroy_users U0 x : Inv (P_users_same U0) (course_destroy x).
Proof. intros s Hs. rewrite course_destroy_state. exact Hs. Qed.

Lemma assign_global_users U0 strict x v :
  Inv (P_users_same U0) (assign_global strict x v).
Proof.
  apply assign_global_keeps_db. unfold P_users_same. intros s s' ->. auto.
Qed.

Lemma serve_users_same `{NpmLibs} U0 strict r :
  rq_route r <> PostUsers -> InvH (P_users_same U0) (serve strict r).
Proof.
  intros Hr. unfold serve. cbv zeta.
  destruct (rq_route r); try congruence; try apply InvH_with_auth;
    apply InvH_asyncHandler;
    unfold get_root, get_users, user_findAll, get_courses,
      course_findAll, get_course, course_findByPk, post_courses, put_course,
      delete_course; inv;
    auto using course_create_users, course_update_users, course_destroy_users,
      assign_global_users.
Qed.

Lemma post_users_users `{NpmLibs} strict r s :
  rq_route r = PostUsers ->
  users (st_db (snd (serve strict r s))) = users (st_db s) \/
  exists u, users (st_db (snd (serve strict r s))) = (users (st_db s) ++ [u])%list.
Proof.
  intros Hr. remember (snd (serve strict r s)) as s' eqn:Es.
  unfold serve in Es. rewrite Hr in Es. unfold asyncHandler, post_users in Es.
  revert Es. destruct (nonempty _); intros Es; [subst s'; left; reflexivity|].
  unfold try_catch, bind, hash_password, ret, throw in Es. revert Es.
  destruct (obj_get "password" (rq_body r)) as [[]|]; intros Es; cbv beta iota zeta in Es;
    try (subst s'; left; reflexivity).
  match type of Es with context [user_create ?a ?b ?c ?p s] =>
    pose proof (user_create_state a b c p s) as Hst;
    destruct (user_create a b c p s) as [o s1] eqn:Eu end.
  cbn [snd] in Hst.
  assert (Hs1 : users (st_db s1) = users (st_db s) \/
                exists u, users (st_db s1) = (users (st_db s) ++ [u])%list).
  { destruct Hst as [-> | (u & _ & ->)]; [left; reflexivity | right; exists u; reflexivity]. }
  destruct o as [u|]; [|subst s'; exact Hs1].
  match type of Es with context [assign_global ?st ?x ?v s1] =>
    pose proof (assign_global_db st x v s1) as Ha;
    destruct (assign_global st x v s1) as [o2 s2] eqn:Ea end.
  cbn [snd] in Ha. destruct o2; subst s'; cbn; rewrite Ha; exact Hs1.
Qed.

(** *** More lemmas on validated bodies *)

Lemma course_userId_truthy r v :
  run_chains courseValidationChain r = [] ->
  obj_get "userId" (rq_body r) = Some v -> truthy (Some v) = true.
Proof.
  rewrite course_chains_eq, !app_nil_iff, !custom_failures_nil.
  intros (_ & _ & _ & _ & _ & _ & Hu & _) Hv.
  exact (proj1 (Forall_forall _ _) Hu _ (body_value_checked _ _ _ Hv)).
Qed.

Lemma not_null_of_truthy v :
  truthy (Some v) = true -> match v with JNull => false | _ => true end = true.
Proof. destruct v; cbn; congruence. Qed.

Lemma nullable_opt_string v :
  (forall x, v = Some x -> exists t, x = JStr t) -> nullable_text v = Some (opt_string v).
Proof.
  intros Hv. destruct v as [x|]; [|reflexivity].
  destruct (Hv x eq_refl) as [t ->]. reflexivity.
Qed.

(** The effect of a successful [POST /courses]. *)
Lemma post_courses_effect `{NpmLibs} strict r s u t d v z :
  rq_route r = PostCourses ->
  authenticateUser (rq_authorization r) (st_db s) = AuthNext u ->
  run_chains courseValidationChain r = [] ->
  obj_get "title" (rq_body r) = Some (JStr t) ->
  obj_get "description" (rq_body r) = Some (JStr d) ->
  obj_get "userId" (rq_body r) = Some v -> sqlite_int v = Some z ->
  user_exists (st_db s) z = true ->
  let x := Course (next_course_id (st_db s)) t d
             (opt_string (obj_get "estimatedTime" (rq_body r)))
             (opt_string (obj_get "materialsNeeded" (rq_body r))) z in
  let db' := Store (users (st_db s)) (courses (st_db s) ++ [x])%list
               (next_user_id (st_db s)) (next_course_id (st_db s) + 1) in
  serve strict r s =
  if strict && negb (bound "course" (st_globals s))
  then (internal_error "ReferenceError" "course is not defined",
        State db' (st_globals s))
  else (Response 201 (message "Successfully created course"),
        State db' (("course", course_json x) :: st_globals s)).
Proof.
  intros Hr Hauth Hv Ht Hd Hu Hz Hex. cbv zeta.
  pose proof (course_body_strings r Hv) as Hs.
  unfold serve, with_auth. rewrite Hr, Hauth, Hv.
  unfold asyncHandler, post_courses, nonempty, try_catch, course_create.
  rewrite Ht, Hd, Hu, (nullable_opt_string _ (Hs "estimatedTime" ltac:(cbn; tauto))),
    (nullable_opt_string _ (Hs "materialsNeeded" ltac:(cbn; tauto))).
  cbn [column_text text_of].
  rewrite (sqlite_int_not_null v z Hz).
  unfold bind, get_db. cbv beta iota zeta.
  rewrite (fk_check_ok _ v z _ Hz Hex).
  unfold put_db, ret, assign_global, bound. cbv beta iota zeta.
  cbn [st_globals st_db]. destruct (strict && _); reflexivity.
Qed.

(** *** [POST /users] beyond the claims *)

(** In the file as written (['use strict']), [user = await User.create(...)]
    assigns an undeclared identifier: a [POST /users] that passes
    validation, with a string password and a first name, last name and email
    the model stores as text, stores the new row and is then answered 500
    with a ReferenceError, never 201. *)
Theorem strict_post_users_stores_then_fails `{NpmLibs} r s f l e pw :
  rq_route r = PostUsers ->
  run_chains userValidationChain r = [] ->
  column_text (obj_get "firstName" (rq_body r)) = Some f ->
  column_text (obj_get "lastName" (rq_body r)) = Some l ->
  column_text (obj_get "emailAddress" (rq_body r)) = Some e ->
  obj_get "password" (rq_body r) = Some (JStr pw) ->
  bound "user" (st_globals s) = false ->
  fst (serve true r s) = internal_error "ReferenceError" "user is not defined" /\
  users (st_db (snd (serve true r s))) =
  (users (st_db s) ++ [User (next_user_id (st_db s)) f l e (hashSync pw)])%list.
Proof.
  intros Hr Hv Hf Hl He Hpw Hg.
  rewrite (post_users_effect true r s f l e pw Hr Hv Hf Hl He Hpw).
  rewrite Hg. split; reflexivity.
Qed.

(** In sloppy mode the same request is answered 201: the row is appended
    with the next id and the hash of the password, and the global [user]
    left behind holds the whole row, hash included. *)
Theorem sloppy_post_users_created `{NpmLibs} r s f l e pw :
  rq_route r = PostUsers ->
  run_chains userValidationChain r = [] ->
  column_text (obj_get "firstName" (rq_body r)) = Some f ->
  column_text (obj_get "lastName" (rq_body r)) = Some l ->
  column_text (obj_get "emailAddress" (rq_body r)) = Some e ->
  obj_get "password" (rq_body r) = Some (JStr pw) ->
  let u := User (next_user_id (st_db s)) f l e (hashSync pw) in
  serve false r s =
  (Response 201 (message "Successfully created new user."),
   State (Store (users (st_db s) ++ [u])%list (courses (st_db s))
            (next_user_id (st_db s) + 1) (next_course_id (st_db s)))
         (("user", user_row_json u) :: st_globals s)).
Proof.
  intros Hr Hv Hf Hl He Hpw u.
  exact (post_users_effect false r s f l e pw Hr Hv Hf Hl He Hpw).
Qed.

(** A [POST /users] that passes validation while the body's password is not
    a string (absent from the body, a number, [true], an array, an object)
    makes [bcryptjs.hashSync] throw: the answer is 500 with its
    [Illegal arguments] error, and nothing changes. *)
Theorem post_users_nonstring_password `{NpmLibs} strict r s :
  rq_route r = PostUsers ->
  run_chains userValidationChain r = [] ->
  (forall p, obj_get "password" (rq_body r) <> Some (JStr p)) ->
  serve strict r s =
  (internal_error "Error" ("Illegal arguments: " ++
     js_typeof (obj_get "password" (rq_body r)) ++ ", string"), s).
Proof.
  intros Hr Hv Hns. unfold serve, asyncHandler, post_users. rewrite Hr, Hv.
  unfold nonempty, try_catch, bind, hash_password. revert Hns.
  destruct (obj_get "password" (rq_body r)) as [[]|]; intros Hns;
    try (exfalso; eapply Hns; reflexivity); reflexivity.
Qed.

(** *** The store invariants *)

(** The ids stay distinct and below the counters: the router never writes an
    id ([id: null] on create, no id on update), so every id comes from the
    auto-increment counter. *)
Theorem run_keeps_ids_unique `{NpmLibs} strict rs : forall s,
  wf_store (st_db s) -> wf_store (st_db (snd (run strict rs s))).
Proof.
  apply (run_Inv strict P_wf); auto using user_create_wf, course_create_wf,
    put_course_wf, course_destroy_wf.
  intros x v. apply assign_global_keeps_db, P_wf_db.
Qed.

(** Every stored course's owner is a stored user, and stays so over any
    sequence of requests: no user is ever removed, a created course's owner
    passes the foreign key, and an update either passes it or keeps the
    owner it found. *)
Theorem run_keeps_owners_exist `{NpmLibs} strict rs : forall s,
  owners_exist (st_db s) -> owners_exist (st_db (snd (run strict rs s))).
Proof.
  apply (run_Inv strict P_owners); auto using user_create_owners,
    course_create_owners, put_course_owners, course_destroy_owners.
  intros x v. apply assign_global_keeps_db, P_owners_db.
Qed.

(** No request changes or removes a stored user: the users table after a
    request is the one before with at most one row appended, and only
    [POST /users] appends. *)
Theorem users_only_appended `{NpmLibs} strict r s :
  exists l, users (st_db (snd (serve strict r s))) = (users (st_db s) ++ l)%list /\
    (length l <= 1)%nat /\ (rq_route r <> PostUsers -> l = []).
Proof.
  destruct (rq_route r) eqn:Er.
  1,2,4-8: exists []; rewrite app_nil_r; split; [|split; [cbn; lia | intros; reflexivity]];
       apply (serve_users_same (users (st_db s)) strict r); [intros Hc; congruence | reflexivity].
  destruct (post_users_users strict r s Er) as [E | [u E]].
  - exists []. rewrite app_nil_r. split; [exact E|]. split; [cbn; lia|]. intros; reflexivity.
  - exists [u]. split; [exact E|]. split; [cbn; lia|]. intros Hn; contradiction.
Qed.

(** *** Course routes *)

(** An authenticated [POST /courses] that passes validation, whose body
    gives the title and description as strings and a [userId] that SQLite
    stores as the integer [z] of a stored user: the course is appended with
    the next id, the body's strings, the optional fields' strings (or
    [NULL]) and owner [z], in both modes; the answer is 201 in sloppy mode
    (or when [course] is already a global), and the ReferenceError of the
    undeclared [course] in strict mode. *)
Theorem post_courses_stores_course `{NpmLibs} strict r s u t d v z :
  rq_route r = PostCourses ->
  authenticateUser (rq_authorization r) (st_db s) = AuthNext u ->
  run_chains courseValidationChain r = [] ->
  obj_get "title" (rq_body r) = Some (JStr t) ->
  obj_get "description" (rq_body r) = Some (JStr d) ->
  obj_get "userId" (rq_body r) = Some v -> sqlite_int v = Some z ->
  user_exists (st_db s) z = true ->
  let (resp, s') := serve strict r s in
  courses (st_db s') =
    (courses (st_db s) ++
     [Course (next_course_id (st_db s)) t d
        (opt_string (obj_get "estimatedTime" (rq_body r)))
        (opt_string (obj_get "materialsNeeded" (rq_body r))) z])%list /\
  next_course_id (st_db s') = next_course_id (st_db s) + 1 /\
  users (st_db s') = users (st_db s) /\
  resp = (if strict && negb (bound "course" (st_globals s))
          then internal_error "ReferenceError" "course is not defined"
          else Response 201 (message "Successfully created course")).
Proof.
  intros Hr Hauth Hv Ht Hd Hu Hz Hex.
  rewrite (post_courses_effect strict r s u t d v z Hr Hauth Hv Ht Hd Hu Hz Hex).
  destruct (strict && _); cbn; repeat split.
Qed.

(** A course write whose body [userId] names no stored user (as the integer
    SQLite stores) fails the foreign key: [POST /courses], and
    [PUT /courses/:id] on an existing course whose owner the value changes,
    are answered 500 with the foreign-key error, and nothing changes. *)
Theorem course_write_unknown_owner `{NpmLibs} strict r s u t d v :
  authenticateUser (rq_authorization r) (st_db s) = AuthNext u ->
  run_chains courseValidationChain r = [] ->
  obj_get "title" (rq_body r) = Some (JStr t) ->
  obj_get "description" (rq_body r) = Some (JStr d) ->
  obj_get "userId" (rq_body r) = Some v ->
  (forall z, sqlite_int v = Some z -> user_exists (st_db s) z = false) ->
  (rq_route r = PostCourses ->
   serve strict r s =
    (internal_error "SequelizeForeignKeyConstraintError"
       "SQLITE_CONSTRAINT: FOREIGN KEY constraint failed", s)) /\
  (forall id c, rq_route r = PutCourse id ->
   find (fun x => c_id x =? id) (courses (st_db s)) = Some c ->
   userId_changed v (c_userId c) = true ->
   serve strict r s =
    (internal_error "SequelizeForeignKeyConstraintError"
       "SQLITE_CONSTRAINT: FOREIGN KEY constraint failed", s)).
Proof.
  intros Hauth Hv Ht Hd Hu Hno.
  pose proof (course_body_strings r Hv) as Hs.
  pose proof (not_null_of_truthy v (course_userId_truthy r v Hv Hu)) as Hnn.
  split.
  - intros Hr. unfold serve, with_auth. rewrite Hr, Hauth, Hv.
    unfold asyncHandler, post_courses, nonempty, try_catch, course_create.
    rewrite Ht, Hd, Hu, (nullable_opt_string _ (Hs "estimatedTime" ltac:(cbn; tauto))),
      (nullable_opt_string _ (Hs "materialsNeeded" ltac:(cbn; tauto))).
    cbn [column_text text_of]. rewrite Hnn.
    unfold bind, get_db. cbv beta iota zeta.
    rewrite (fk_check_fails _ v _ Hno). reflexivity.
  - intros id c Hr Hf Hc.
    destruct (upd_text_string (obj_get "title" (rq_body r)) (c_title c)
                (Hs "title" ltac:(cbn; tauto))) as (t' & Ht' & _).
    destruct (upd_text_string (obj_get "description" (rq_body r)) (c_description c)
                (Hs "description" ltac:(cbn; tauto))) as (d' & Hd' & _).
    destruct (upd_nullable_string (obj_get "estimatedTime" (rq_body r))
                (c_estimatedTime c) (Hs "estimatedTime" ltac:(cbn; tauto)))
      as (e' & He' & _).
    destruct (upd_nullable_string (obj_get "materialsNeeded" (rq_body r))
                (c_materialsNeeded c) (Hs "materialsNeeded" ltac:(cbn; tauto)))
      as (m' & Hm' & _).
    unfold serve, with_auth. rewrite Hr, Hauth, Hv.
    unfold asyncHandler, put_course, course_findByPk, get_db, ret, bind.
    cbv beta iota zeta. rewrite Hf. unfold nonempty.
    unfold try_catch, course_update. rewrite Ht', Hd', He', Hm', Hu, Hnn.
    unfold get_db, ret, bind. cbv beta iota zeta. rewrite Hc.
    rewrite (fk_check_fails _ v _ Hno). reflexivity.
Qed.

(** [DELETE /courses/:id], for any authenticated caller (the owner is not
    checked): an unknown id is answered 404 and nothing changes; a known id
    is answered 204 with no body, every row with that id is removed and
    nothing else changes, so that a later [GET /courses/:id] is answered
    404. *)
Theorem delete_course_removes `{NpmLibs} strict r id s u :
  rq_route r = DeleteCourse id ->
  authenticateUser (rq_authorization r) (st_db s) = AuthNext u ->
  (find (fun x => c_id x =? id) (courses (st_db s)) = None ->
   serve strict r s = (Response 404 (message "That course id does not exist."), s)) /\
  (forall c, find (fun x => c_id x =? id) (courses (st_db s)) = Some c ->
   let (resp, s') := serve strict r s in
   resp = MkResponse 204 None /\
   st_db s' = Store (users (st_db s))
                (filter (fun x => negb (c_id x =? id)) (courses (st_db s)))
                (next_user_id (st_db s)) (next_course_id (st_db s)) /\
   st_globals s' = st_globals s /\
   forall r', rq_route r' = GetCourse id ->
   serve strict r' s' =
     (Response 404 (message "There are no courses with that id."), s')).
Proof.
  intros Hr Hauth. split.
  - intros Hf. unfold serve, with_auth. rewrite Hr, Hauth.
    unfold asyncHandler, delete_course, course_findByPk, get_db, ret, bind.
    cbv beta iota zeta. rewrite Hf. reflexivity.
  - intros c Hf. pose proof (find_c_id _ Hf) as Hc.
    unfold serve at 1, with_auth. rewrite Hr, Hauth.
    unfold asyncHandler at 1, delete_course, course_findByPk at 1, get_db at 1,
      bind at 1 2.
    cbv beta iota zeta. rewrite Hf.
    unfold try_catch, course_destroy, bind, get_db, put_db, ret. cbv beta iota zeta.
    cbn [st_db st_globals]. rewrite Hc.
    split; [reflexivity|]. split; [reflexivity|]. split; [reflexivity|].
    intros r' Hr'. unfold serve. rewrite Hr'.
    unfold asyncHandler, get_course, course_findByPk, bind, get_db, ret.
    cbv beta iota zeta. cbn [st_db courses].
    assert (Hn : forall cs, find (fun x => c_id x =? id)
                   (filter (fun x => negb (c_id x =? id)) cs) = None).
    { induction cs as [|x cs IH]; cbn; [reflexivity|].
      destruct (c_id x =? id) eqn:E; cbn; [exact IH|]. rewrite E. exact IH. }
    rewrite Hn. reflexivity.
Qed.

Lemma find_app_none {A} (p : A -> bool) l l' :
  find p l = None -> find p (l ++ l')%list = find p l'.
Proof. induction l as [|x l IH]; cbn; [auto|]. destruct (p x); [discriminate | exact IH]. Qed.

Lemma find_fresh_id cs n :
  Forall (fun i => i < n) (map c_id cs) -> find (fun x => c_id x =? n) cs = None.
Proof.
  induction cs as [|x cs IH]; intros Hl; cbn; [reflexivity|].
  inversion Hl; subst. destruct (c_id x =? n) eqn:E; [apply Z.eqb_eq in E; lia|].
  apply IH; assumption.
Qed.

(** Creating a course and reading it back: after a successful
    [POST /courses] (in either mode), [GET /courses/:id] at the id the
    counter gave returns the course as stored: the body's title and
    description, its optional strings (or [NULL]) and the integer owner. *)
Theorem post_then_get_course `{NpmLibs} strict r r' s u t d v z :
  wf_store (st_db s) ->
  rq_route r = PostCourses ->
  authenticateUser (rq_authorization r) (st_db s) = AuthNext u ->
  run_chains courseValidationChain r = [] ->
  obj_get "title" (rq_body r) = Some (JStr t) ->
  obj_get "description" (rq_body r) = Some (JStr d) ->
  obj_get "userId" (rq_body r) = Some v -> sqlite_int v = Some z ->
  user_exists (st_db s) z = true ->
  rq_route r' = GetCourse (next_course_id (st_db s)) ->
  let s' := snd (serve strict r s) in
  serve strict r' s' =
  (Response 200 (course_json
     (Course (next_course_id (st_db s)) t d
        (opt_string (obj_get "estimatedTime" (rq_body r)))
        (opt_string (obj_get "materialsNeeded" (rq_body r))) z)), s').
Proof.
  intros Hw Hr Hauth Hv Ht Hd Hu Hz Hex Hr' s'.
  assert (Hc : courses (st_db s') =
    (courses (st_db s) ++
     [Course (next_course_id (st_db s)) t d
        (opt_string (obj_get "estimatedTime" (rq_body r)))
        (opt_string (obj_get "materialsNeeded" (rq_body r))) z])%list).
  { unfold s'. rewrite (post_courses_effect strict r s u t d v z Hr Hauth Hv Ht Hd Hu Hz Hex).
    destruct (strict && _); reflexivity. }
  unfold serve. rewrite Hr'.
  unfold asyncHandler, get_course, course_findByPk, bind, get_db, ret.
  cbv beta iota zeta.
  rewrite Hc, find_app_none by (apply find_fresh_id, Hw). cbn.
  rewrite Z.eqb_refl. reflexivity.
Qed.

(** A successful [PUT /courses/:id] touches only the course with that id:
    the list of course ids is the same, every other row stays at its place
    unchanged, and the users table, the counters and the globals are
    unchanged. *)
Theorem put_course_frame `{NpmLibs} strict r id s u c v z :
  rq_route r = PutCourse id ->
  authenticateUser (rq_authorization r) (st_db s) = AuthNext u ->
  find (fun x => c_id x =? id) (courses (st_db s)) = Some c ->
  run_chains courseValidationChain r = [] ->
  obj_get "userId" (rq_body r) = Some v -> sqlite_int v = Some z ->
  user_exists (st_db s) z = true ->
  let s' := snd (serve strict r s) in
  map c_id (courses (st_db s')) = map c_id (courses (st_db s)) /\
  (forall i x, nth_error (courses (st_db s)) i = Some x -> c_id x <> id ->
     nth_error (courses (st_db s')) i = Some x) /\
  users (st_db s') = users (st_db s) /\
  next_user_id (st_db s') = next_user_id (st_db s) /\
  next_course_id (st_db s') = next_course_id (st_db s) /\
  st_globals s' = st_globals s.
Proof.
  intros Hr Hauth Hf Hv Hu Hz Hex s'. pose proof (find_c_id _ Hf) as Hc.
  destruct (put_course_effect strict r id s u c v z Hr Hauth Hf Hv Hu Hz (fun _ => Hex))
    as (t & d & e & m & _ & _ & _ & _ & Hs).
  unfold s'. rewrite Hs. cbn [snd st_db st_globals users courses next_user_id next_course_id].
  split; [apply map_c_id_replace|]. split; [|auto].
  intros i x Hi Hx. unfold replace_course. rewrite nth_error_map, Hi. cbn.
  rewrite Hc. destruct (c_id x =? id) eqn:E; [apply Z.eqb_eq in E; contradiction|].
  reflexivity.
Qed.

(** *** What the validation chains accept *)

Lemma Forall_and_iff {A} (P Q : A -> Prop) l :
  Forall P l /\ Forall Q l <-> Forall (fun x => P x /\ Q x) l.
Proof.
  split.
  - intros [HP HQ]. apply Forall_and; assumption.
  - intros H. split; eapply Forall_impl; try exact H; intros x [? ?]; assumption.
Qed.

(** [POST /users] passes validation exactly when every instance of
    firstName and lastName that [check()] reads (one per request location
    holding the field, or the body's when none does) is truthy and renders
    alphabetic, every instance of emailAddress is truthy and renders as an
    email, and every instance of password is truthy.  Nothing requires a
    string: [true] passes as a name, any truthy value as a password. *)
Theorem user_validation_accepts `{NpmLibs} r :
  run_chains userValidationChain r = [] <->
  Forall (fun v => truthy v = true /\ isAlpha (ev_toString v) = true)
    (field_instances r "firstName") /\
  Forall (fun v => truthy v = true /\ isAlpha (ev_toString v) = true)
    (field_instances r "lastName") /\
  Forall (fun v => truthy v = true /\ isEmail (ev_toString v) = true)
    (field_instances r "emailAddress") /\
  Forall (fun v => truthy v = true) (field_instances r "password").
Proof.
  rewrite user_chains_eq, !app_nil_iff, !custom_failures_nil, !std_failures_nil.
  unfold exists_falsy. rewrite <- !Forall_and_iff. tauto.
Qed.

Lemma title_rule_iff v :
  exists_falsy v = true /\ is_string v = true <->
  exists t, v = Some (JStr t) /\ t <> "".
Proof.
  unfold exists_falsy, truthy, is_string. split.
  - intros [Ht Hs]. destruct v as [[]|]; try discriminate.
    exists s. split; [reflexivity|]. intros ->. discriminate.
  - intros (t & -> & Ht). apply String.eqb_neq in Ht. rewrite Ht. auto.
Qed.

Lemma optional_rule_iff m v :
  custom_failures is_string m (filter exists_plain [v]) = [] <->
  v = None \/ exists t, v = Some (JStr t).
Proof.
  unfold custom_failures. destruct v as [[]|]; cbn; split; intros H;
    try discriminate; eauto; destruct H as [H | [t H]]; discriminate.
Qed.

(** [POST /courses] and [PUT /courses/:id] pass validation exactly when
    every instance of title and description that [check()] reads is a
    non-empty string, the body's estimatedTime and materialsNeeded are
    absent or strings, and every instance of userId is truthy and renders as
    an integer without leading zeroes. *)
Theorem course_validation_accepts r :
  run_chains courseValidationChain r = [] <->
  Forall (fun v => exists t, v = Some (JStr t) /\ t <> "") (field_instances r "title") /\
  Forall (fun v => exists t, v = Some (JStr t) /\ t <> "")
    (field_instances r "description") /\
  (obj_get "estimatedTime" (rq_body r) = None \/
   exists e, obj_get "estimatedTime" (rq_body r) = Some (JStr e)) /\
  (obj_get "materialsNeeded" (rq_body r) = None \/
   exists m, obj_get "materialsNeeded" (rq_body r) = Some (JStr m)) /\
  Forall (fun v => truthy v = true /\ isInt_no_leading_zeroes (ev_toString v) = true)
    (field_instances r "userId").
Proof.
  rewrite course_chains_eq, !app_nil_iff.
  rewrite (optional_rule_iff msg_estimatedTime), (optional_rule_iff msg_materialsNeeded).
  rewrite !custom_failures_nil, !std_failures_nil.
  assert (Ht : forall l, Forall (fun v => exists_falsy v = true) l /\
                         Forall (fun v => is_string v = true) l <->
                         Forall (fun v => exists t, v = Some (JStr t) /\ t <> "") l).
  { intros l. rewrite Forall_and_iff. split; apply Forall_impl;
      intros v; apply title_rule_iff. }
  rewrite <- !Ht. unfold exists_falsy. rewrite <- Forall_and_iff. tauto.
Qed.

(** *** UTF-8 *)

Ltac bool_to_prop :=
  repeat match goal with
  | H : (_ && _) = true |- _ => apply andb_true_iff in H as [? ?]
  | H : (_ || _) = true |- _ => apply orb_true_iff in H as [? | ?]
  | H : (_ && _) = false |- _ => apply andb_false_iff in H as [? | ?]
  | H : (_ || _) = false |- _ => apply orb_false_iff in H as [? ?]
  | H : Nat.leb _ _ = true |- _ => apply Nat.leb_le in H
  | H : Nat.leb _ _ = false |- _ => apply Nat.leb_gt in H
  | H : Nat.ltb _ _ = true |- _ => apply Nat.ltb_lt in H
  | H : Nat.ltb _ _ = false |- _ => apply Nat.ltb_ge in H
  | H : Nat.eqb _ _ = true |- _ => apply Nat.eqb_eq in H
  | H : Nat.eqb _ _ = false |- _ => apply Nat.eqb_neq in H
  end.

(** Settles a byte-range test from the tests already taken. *)
Ltac byte_range :=
  unfold byte_in in *; bool_to_prop;
  repeat match goal with |- context [Nat.eqb ?a ?b] => destruct (Nat.eqb_spec a b) end;
  first
    [ apply andb_true_iff; split; apply Nat.leb_le; lia
    | apply andb_false_iff; left; apply Nat.leb_gt; lia
    | apply andb_false_iff; right; apply Nat.leb_gt; lia ].

(** The decoder leaves well-formed UTF-8 as it is. *)
Lemma utf8_wf_fix l : utf8_wf l = true -> utf8_fix l = l.
Proof.
  induction l as [l IH] using (induction_ltof1 _ (@List.length nat)); unfold ltof in IH.
  destruct l as [|b t]; [reflexivity|]. intros Hw.
  cbn [utf8_wf utf8_fix] in *.
  destruct (Nat.ltb b 128) eqn:E0.
  { f_equal. apply IH; [cbn; lia | exact Hw]. }
  destruct t as [|c t1]; [discriminate|]. cbv beta iota zeta in *.
  destruct (byte_in 194 223 b && byte_in 128 191 c) eqn:E1.
  { apply andb_true_iff in E1 as [E1 E1']. rewrite E1, E1'.
    do 2 f_equal. apply IH; [cbn; lia | exact Hw]. }
  destruct t1 as [|d t2]; [discriminate|]. cbv beta iota zeta in *.
  match type of Hw with (if ?x then _ else _) = true => destruct x eqn:E2 end.
  { clear E0 E1.
    assert (F1 : byte_in 194 223 b = false) by byte_range.
    assert (F2 : byte_in 224 239 b = true) by byte_range.
    assert (F3 : byte_in (if Nat.eqb b 224 then 160 else 128)%nat
                   (if Nat.eqb b 237 then 159 else 191)%nat c = true) by byte_range.
    assert (F4 : byte_in 128 191 d = true) by byte_range.
    rewrite F1, F2, F3, F4. do 3 f_equal. apply IH; [cbn; lia | exact Hw]. }
  destruct t2 as [|e t3]; [discriminate|]. cbv beta iota zeta in *.
  apply andb_true_iff in Hw as [Hw Hw3]. clear E0 E1 E2.
  assert (F1 : byte_in 194 223 b = false) by byte_range.
  assert (F2 : byte_in 224 239 b = false) by byte_range.
  assert (F3 : byte_in 240 244 b = true) by byte_range.
  assert (F4 : byte_in (if Nat.eqb b 240 then 144 else 128)%nat
                 (if Nat.eqb b 244 then 143 else 191)%nat c = true) by byte_range.
  assert (F5 : byte_in 128 191 d = true) by byte_range.
  assert (F6 : byte_in 128 191 e = true) by byte_range.
  rewrite F1, F2, F3, F4, F5, F6. do 4 f_equal. apply IH; [cbn; lia | exact Hw3].
Qed.

(** *** Base64 *)

Lemma div_pack (r q k : nat) : (q < k)%nat -> ((r * k + q) / k = r)%nat.
Proof. intros Hq. symmetry. apply (Nat.div_unique _ _ _ q); lia. Qed.

Lemma mod_pack (r q k : nat) : (q < k)%nat -> ((r * k + q) mod k = q)%nat.
Proof. intros Hq. symmetry. apply (Nat.mod_unique _ _ r); lia. Qed.

Lemma div_bound (a k m : nat) : (k <> 0)%nat -> (a < k * m)%nat -> (a / k < m)%nat.
Proof. intros Hk Ha. apply Nat.Div0.div_lt_upper_bound; lia. Qed.

Lemma b64_char_ok (w : nat) : (w < 64)%nat ->
  b64_val (b64_char w) = Some w /\ Ascii.eqb (b64_char w) "=" = false /\
  token_char (b64_char w) = true /\ is_space (b64_char w) = false.
Proof.
  intros Hw.
  assert (Hall : forallb (fun w =>
    match b64_val (b64_char w) with Some v => Nat.eqb v w | None => false end &&
    negb (Ascii.eqb (b64_char w) "=") && token_char (b64_char w) &&
    negb (is_space (b64_char w))) (seq 0 64) = true) by (vm_compute; reflexivity).
  rewrite forallb_forall in Hall.
  specialize (Hall w (proj2 (in_seq _ _ _) (conj (Nat.le_0_l _) Hw))).
  destruct (b64_val (b64_char w)) as [v|]; [|discriminate].
  rewrite !andb_true_iff, !negb_true_iff, Nat.eqb_eq in Hall.
  destruct Hall as [[[-> ?] ?] ?]. auto.
Qed.

Lemma sextets_cons w s : (w < 64)%nat ->
  b64_sextets (String (b64_char w) s) = w :: b64_sextets s.
Proof.
  intros Hw. destruct (b64_char_ok w Hw) as (Hv & He & _).
  cbn. rewrite He, Hv. reflexivity.
Qed.

Lemma sextets_pad s : b64_sextets (String "=" s) = [].
Proof. reflexivity. Qed.

Lemma list_ind3 (P : list nat -> Prop) :
  P [] -> (forall a, P [a]) -> (forall a b, P [a; b]) ->
  (forall a b c rest, P rest -> P (a :: b :: c :: rest)) -> forall l, P l.
Proof.
  intros H0 H1 H2 H3.
  assert (forall n l, (length l <= n)%nat -> P l) as Hn.
  { induction n as [|n IH]; intros l Hl.
    - destruct l; [exact H0 | cbn in Hl; lia].
    - destruct l as [|a [|b [|c rest]]]; auto.
      apply H3, IH. cbn in Hl. lia. }
  intros l. apply (Hn (length l) l). lia.
Qed.

(** Decoding what the client encodes gives the bytes back. *)
Lemma b64_decode_encode (l : list nat) : Forall (fun x => x < 256)%nat l ->
  b64_bytes (b64_sextets (string_of_list_ascii (b64_enc_bytes l))) = l.
Proof.
  induction l as [|a|a b|a b c rest IH] using list_ind3; intros Hl.
  - reflexivity.
  - inversion Hl; subst.
    assert (Hs0 : (a / 4 < 64)%nat) by (apply div_bound; lia).
    assert (Hs1 : ((a mod 4) * 16 < 64)%nat) by (pose proof (Nat.mod_upper_bound a 4); lia).
    cbn [b64_enc_bytes string_of_list_ascii]. rewrite !sextets_cons by assumption.
    rewrite sextets_pad. cbn [b64_bytes map]. f_equal.
    rewrite <- (Nat.add_0_r ((a mod 4) * 16)), div_pack by lia.
    pose proof (Nat.div_mod_eq a 4). lia.
  - inversion Hl as [|? ? Ha Hl']; inversion Hl'; subst.
    assert (Hb16 : (b / 16 < 16)%nat) by (apply div_bound; lia).
    assert (Hm4 := Nat.mod_upper_bound a 4 ltac:(lia)).
    assert (Hm16 := Nat.mod_upper_bound b 16 ltac:(lia)).
    assert (Hs0 : (a / 4 < 64)%nat) by (apply div_bound; lia).
    assert (Hs1 : ((a mod 4) * 16 + b / 16 < 64)%nat) by lia.
    assert (Hs2 : ((b mod 16) * 4 < 64)%nat) by lia.
    cbn [b64_enc_bytes string_of_list_ascii]. rewrite !sextets_cons by assumption.
    rewrite sextets_pad. cbn [b64_bytes map]. rewrite div_pack, mod_pack by lia.
    rewrite <- (Nat.add_0_r ((b mod 16) * 4)), div_pack by lia.
    pose proof (Nat.div_mod_eq a 4). pose proof (Nat.div_mod_eq b 16).
    f_equal; [lia|]. f_equal. lia.
  - inversion Hl as [|? ? Ha Hl1]; inversion Hl1 as [|? ? Hb Hl2];
      inversion Hl2 as [|? ? Hc Hl3]; subst.
    assert (Hb16 : (b / 16 < 16)%nat) by (apply div_bound; lia).
    assert (Hc64 : (c / 64 < 4)%nat) by (apply div_bound; lia).
    assert (Hm4 := Nat.mod_upper_bound a 4 ltac:(lia)).
    assert (Hm16 := Nat.mod_upper_bound b 16 ltac:(lia)).
    assert (Hm64 := Nat.mod_upper_bound c 64 ltac:(lia)).
    assert (Hs0 : (a / 4 < 64)%nat) by (apply div_bound; lia).
    assert (Hs1 : ((a mod 4) * 16 + b / 16 < 64)%nat) by lia.
    assert (Hs2 : ((b mod 16) * 4 + c / 64 < 64)%nat) by lia.
    cbn [b64_enc_bytes string_of_list_ascii app]. rewrite !sextets_cons by assumption.
    cbn [b64_bytes app]. rewrite (IH Hl3).
    rewrite !div_pack, !mod_pack by lia.
    pose proof (Nat.div_mod_eq a 4). pose proof (Nat.div_mod_eq b 16).
    pose proof (Nat.div_mod_eq c 64).
    f_equal; [lia|]. f_equal; [lia|]. f_equal. lia.
Qed.

Lemma append_empty_r (s : string) : (s ++ "")%string = s.
Proof. induction s as [|c s IH]; cbn; [reflexivity|]. rewrite IH. reflexivity. Qed.

(** The encoding is a run of alphabet characters, then only [=]. *)
Lemma b64_enc_shape (l : list nat) : Forall (fun x => x < 256)%nat l ->
  exists body pad, b64_enc_bytes l = (body ++ pad)%list /\
    Forall (fun c => token_char c = true /\ is_space c = false) body /\
    Forall (fun c => c = "="%char) pad /\ (l <> [] -> body <> []).
Proof.
  assert (Hc : forall w, (w < 64)%nat ->
            token_char (b64_char w) = true /\ is_space (b64_char w) = false)
    by (intros w Hw; destruct (b64_char_ok w Hw) as (_ & _ & ? & ?); auto).
  induction l as [|a|a b|a b c rest IH] using list_ind3; intros Hl.
  - exists [], []. repeat split; auto.
  - inversion Hl; subst.
    assert (Hm4 := Nat.mod_upper_bound a 4 ltac:(lia)).
    exists [b64_char (a / 4); b64_char ((a mod 4) * 16)], ["="%char; "="%char].
    split; [reflexivity|]. split; [|split; [auto | congruence]].
    constructor; [apply Hc, div_bound; lia|]. constructor; [apply Hc; lia|]. constructor.
  - inversion Hl as [|? ? Ha Hl']; inversion Hl'; subst.
    assert (Hm4 := Nat.mod_upper_bound a 4 ltac:(lia)).
    assert (Hm16 := Nat.mod_upper_bound b 16 ltac:(lia)).
    assert (Hb16 : (b / 16 < 16)%nat) by (apply div_bound; lia).
    exists [b64_char (a / 4); b64_char ((a mod 4) * 16 + b / 16);
            b64_char ((b mod 16) * 4)], ["="%char].
    split; [reflexivity|]. split; [|split; [auto | congruence]].
    constructor; [apply Hc, div_bound; lia|].
    constructor; [apply Hc; lia|]. constructor; [apply Hc; lia|]. constructor.
  - inversion Hl as [|? ? Ha Hl1]; inversion Hl1 as [|? ? Hb Hl2];
      inversion Hl2 as [|? ? Hc' Hl3]; subst.
    destruct (IH Hl3) as (body & pad & HE & Hb' & Hp & _).
    assert (Hm4 := Nat.mod_upper_bound a 4 ltac:(lia)).
    assert (Hm16 := Nat.mod_upper_bound b 16 ltac:(lia)).
    assert (Hm64 := Nat.mod_upper_bound c 64 ltac:(lia)).
    assert (Hb16 : (b / 16 < 16)%nat) by (apply div_bound; lia).
    assert (Hc64 : (c / 64 < 4)%nat) by (apply div_bound; lia).
    exists ([b64_char (a / 4); b64_char ((a mod 4) * 16 + b / 16);
             b64_char ((b mod 16) * 4 + c / 64); b64_char (c mod 64)] ++ body)%list, pad.
    split; [cbn [b64_enc_bytes]; rewrite HE, app_assoc; reflexivity|].
    split; [|split; [exact Hp | cbn; congruence]].
    apply Forall_app. split; [|exact Hb'].
    constructor; [apply Hc, div_bound; lia|].
    constructor; [apply Hc; lia|]. constructor; [apply Hc; lia|].
    constructor; [apply Hc; lia|]. constructor.
Qed.

Lemma string_of_list_ascii_app (l1 l2 : list ascii) :
  string_of_list_ascii (l1 ++ l2) = string_of_list_ascii l1 ++ string_of_list_ascii l2.
Proof. induction l1 as [|c l1 IH]; cbn; [reflexivity|]. rewrite IH. reflexivity. Qed.

Lemma take_drop_body (p : ascii -> bool) body rest :
  Forall (fun c => p c = true) body ->
  take_while p (string_of_list_ascii body ++ rest) =
    string_of_list_ascii body ++ take_while p rest /\
  drop_while p (string_of_list_ascii body ++ rest) = drop_while p rest.
Proof.
  induction body as [|c body IH]; intros Hb; cbn; [auto|].
  inversion Hb; subst. rewrite H1. destruct (IH H2) as [-> ->]. auto.
Qed.

Lemma pad_take_drop pad :
  Forall (fun c => c = "="%char) pad ->
  take_while token_char (string_of_list_ascii pad) = "" /\
  drop_while token_char (string_of_list_ascii pad) = string_of_list_ascii pad /\
  take_while (fun x => Ascii.eqb x "=") (string_of_list_ascii pad) = string_of_list_ascii pad /\
  drop_while (fun x => Ascii.eqb x "=") (string_of_list_ascii pad) = "".
Proof.
  induction pad as [|c pad IH]; intros Hp; cbn; [auto|].
  inversion Hp; subst. destruct (IH H2) as (_ & _ & -> & ->). cbn. auto.
Qed.

(** The header a client builds is taken apart into the encoded token. *)
Lemma credentials_token_basic (l : list nat) :
  Forall (fun x => x < 256)%nat l -> l <> [] ->
  credentials_token ("Basic " ++ string_of_list_ascii (b64_enc_bytes l)) =
  Some (string_of_list_ascii (b64_enc_bytes l)).
Proof.
  intros Hl Hne. destruct (b64_enc_shape l Hl) as (body & pad & HE & Hb & Hp & Hbne).
  specialize (Hbne Hne). rewrite HE, string_of_list_ascii_app.
  destruct body as [|c0 body']; [congruence|].
  inversion Hb as [|? ? [Ht0 Hs0] Hb']; subst.
  assert (Htok : Forall (fun c => token_char c = true) (c0 :: body')).
  { eapply Forall_impl; [|exact Hb]. intros c [? ?]; assumption. }
  destruct (take_drop_body token_char (c0 :: body') (string_of_list_ascii pad) Htok)
    as [Htake Hdrop].
  destruct (pad_take_drop pad Hp) as (Ht & Hd & Ht' & Hd').
  assert (E2 : drop_while is_space
                 (string_of_list_ascii (c0 :: body') ++ string_of_list_ascii pad) =
               string_of_list_ascii (c0 :: body') ++ string_of_list_ascii pad).
  { cbn [string_of_list_ascii append drop_while]. rewrite Hs0. reflexivity. }
  remember (string_of_list_ascii (c0 :: body') ++ string_of_list_ascii pad)%string
    as T eqn:ET.
  assert (E1 : drop_while is_space ("Basic " ++ T) = "Basic " ++ T) by reflexivity.
  unfold credentials_token. rewrite E1.
  cbn -[take_while drop_while].
  match goal with |- context [if ?c then _ else None] =>
    replace c with true by reflexivity end.
  rewrite E2, Hdrop, Hd, Ht', Hd', Htake, Ht. cbn.
  rewrite append_empty_r. subst T. reflexivity.
Qed.

(** Node decodes what a client encodes, up to the repair of ill-formed
    UTF-8. *)
Lemma decode_encode (s : string) :
  decodeBase64 (encodeBase64 s) = string_of_bytes (utf8_fix (bytes_of s)).
Proof.
  unfold decodeBase64, encodeBase64. rewrite b64_decode_encode; [reflexivity|].
  apply Forall_forall. intros x Hx. apply in_map_iff in Hx as (c & <- & _).
  apply nat_ascii_bounded.
Qed.

Lemma string_of_bytes_of (s : string) : string_of_bytes (bytes_of s) = s.
Proof.
  unfold string_of_bytes, bytes_of. rewrite map_map. erewrite map_ext; [rewrite map_id|].
  - apply string_of_list_ascii_of_string.
  - intros c. apply ascii_nat_embedding.
Qed.

(** [USER_PASS_REGEXP] splits at the first colon and refuses a password
    holding a line terminator. *)
Lemma split_user_pass_iff s n p :
  split_user_pass s = Some (n, p) <->
  s = (n ++ ":" ++ p)%string /\
  str_forallb (fun c => negb (Ascii.eqb c ":")) n = true /\
  no_line_terminator p = true.
Proof.
  split.
  - revert n. induction s as [|c s IH]; intros n H; cbn in H; [discriminate|].
    destruct (Ascii.eqb c ":") eqn:Ec.
    + destruct (no_line_terminator s) eqn:Es; [|discriminate].
      injection H as <- <-. apply Ascii.eqb_eq in Ec. subst c. auto.
    + destruct (split_user_pass s) as [[n' p']|] eqn:E; [|discriminate].
      injection H as <- <-. destruct (IH n' eq_refl) as (-> & Hn & Hp).
      cbn. rewrite Ec, Hn. auto.
  - intros (-> & Hn & Hp). revert Hn. induction n as [|c n IH]; intros Hn; cbn.
    + rewrite Hp. reflexivity.
    + cbn in Hn. apply andb_true_iff in Hn as [Hc Hn].
      apply negb_true_iff in Hc. rewrite Hc. specialize (IH Hn). cbn in IH.
      rewrite IH. reflexivity.
Qed.

(** What [auth(req)] accepts, whatever the header: the name holds no colon
    and the password no line terminator (LF, CR, U+2028, U+2029). *)
Theorem basic_auth_fields hdr n p :
  basic_auth hdr = Some (Credentials n p) ->
  str_forallb (fun c => negb (Ascii.eqb c ":")) n = true /\
  no_line_terminator p = true.
Proof.
  unfold basic_auth. destruct hdr as [h|]; [|discriminate].
  destruct (credentials_token h) as [tok|]; [|discriminate].
  destruct (split_user_pass (decodeBase64 tok)) as [[n' p']|] eqn:E; [|discriminate].
  intros Hc. injection Hc as <- <-. apply split_user_pass_iff in E. tauto.
Qed.

(** A client that sends [Basic] and the base64 of the UTF-8 text
    [name:pass], for a name without a colon and a password without a line
    terminator, is read back as exactly that name and password, whatever
    characters they hold. *)
Theorem basic_auth_roundtrip n p :
  utf8_wf (bytes_of (n ++ ":" ++ p)) = true ->
  str_forallb (fun c => negb (Ascii.eqb c ":")) n = true ->
  no_line_terminator p = true ->
  basic_auth (Some ("Basic " ++ encodeBase64 (n ++ ":" ++ p)))
  = Some (Credentials n p).
Proof.
  intros Hw Hn Hp.
  assert (Ht : credentials_token ("Basic " ++ encodeBase64 (n ++ ":" ++ p))
               = Some (encodeBase64 (n ++ ":" ++ p))).
  { apply credentials_token_basic.
    - apply Forall_forall. intros x Hx. apply in_map_iff in Hx as (c & <- & _).
      apply nat_ascii_bounded.
    - destruct n; cbn; discriminate. }
  unfold basic_auth. rewrite Ht, decode_encode, (utf8_wf_fix _ Hw), string_of_bytes_of.
  rewrite (proj2 (split_user_pass_iff _ n p)) by auto. reflexivity.
Qed.

(** *** Facts of the small school *)

Lemma school_store_wf : wf_store (school_store "cobol").
Proof.
  unfold wf_store; cbn. split; [|split; [|split]].
  - constructor; [cbn; intros [E|[]]; discriminate|]. constructor; [intros []|constructor].
  - apply Forall_forall. intros i Hi. cbn in Hi. lia.
  - constructor; [cbn; intros [E|[]]; discriminate|]. constructor; [intros []|constructor].
  - apply Forall_forall. intros i Hi. cbn in Hi. lia.
Qed.

Lemma school_store_owners : owners_exist (school_store "cobol").
Proof. unfold owners_exist. cbn. repeat constructor. Qed.

(** *** Instances *)

Lemma strict_post_users_stores_then_fails_witness :
  fst (@serve demo_libs true (req PostUsers None ada_body) (State empty_store [])) =
  internal_error "ReferenceError" "user is not defined" /\
  users (st_db (snd (@serve demo_libs true (req PostUsers None ada_body)
                       (State empty_store [])))) =
  [User 1 "Ada" "Lovelace" "ada@example.com" (demo_hash "abc123")].
Proof.
  exact (@strict_post_users_stores_then_fails demo_libs (req PostUsers None ada_body)
    (State empty_store []) "Ada" "Lovelace" "ada@example.com" "abc123"
    ltac:(reflexivity) ltac:(vm_compute; reflexivity) ltac:(vm_compute; reflexivity)
    ltac:(vm_compute; reflexivity) ltac:(vm_compute; reflexivity)
    ltac:(vm_compute; reflexivity) ltac:(vm_compute; reflexivity)).
Defined.

Lemma sloppy_post_users_created_witness :
  fst (@serve demo_libs false (req PostUsers None ada_body) (State empty_store [])) =
  Response 201 (message "Successfully created new user.").
Proof.
  rewrite (@sloppy_post_users_created demo_libs (req PostUsers None ada_body)
    (State empty_store []) "Ada" "Lovelace" "ada@example.com" "abc123"
    ltac:(reflexivity) ltac:(vm_compute; reflexivity) ltac:(vm_compute; reflexivity)
    ltac:(vm_compute; reflexivity) ltac:(vm_compute; reflexivity)
    ltac:(vm_compute; reflexivity)).
  reflexivity.
Defined.

Lemma post_users_nonstring_password_witness :
  @serve demo_libs true (req PostUsers None numeric_password_body)
    (State empty_store []) =
  (internal_error "Error" "Illegal arguments: number, string", State empty_store []).
Proof.
  rewrite (@post_users_nonstring_password demo_libs true
    (req PostUsers None numeric_password_body) (State empty_store [])
    ltac:(reflexivity) ltac:(vm_compute; reflexivity)
    ltac:(intros p Hp; vm_compute in Hp; discriminate)).
  reflexivity.
Defined.

Lemma run_keeps_ids_unique_witness :
  wf_store (school_store "cobol") /\
  wf_store (st_db (snd (@run demo_libs false
    [req PostUsers None ada_body; req PostCourses ada_header course_body;
     req (DeleteCourse 1) ada_header []]
    (State (school_store "cobol") [])))).
Proof.
  split; [exact school_store_wf|].
  apply run_keeps_ids_unique. exact school_store_wf.
Defined.

Lemma run_keeps_owners_exist_witness :
  owners_exist (school_store "cobol") /\
  owners_exist (st_db (snd (@run demo_libs true
    [req PostCourses ada_header course_body; req (PutCourse 1) ada_header course_body_plus;
     req PostCourses ada_header stranger_course_body; req (DeleteCourse 2) ada_header []]
    (State (school_store "cobol") [])))).
Proof.
  split; [exact school_store_owners|].
  apply run_keeps_owners_exist. exact school_store_owners.
Defined.

Lemma post_courses_stores_course_witness :
  fst (@serve demo_libs false (req PostCourses ada_header course_body)
         (State (school_store "cobol") [])) =
  Response 201 (message "Successfully created course") /\
  courses (st_db (snd (@serve demo_libs false (req PostCourses ada_header course_body)
                         (State (school_store "cobol") [])))) =
  [grace_course; ada_course; Course 3 "Intro to Rocq" "Proofs and programs" None None 1].
Proof.
  generalize (@post_courses_stores_course demo_libs false
    (req PostCourses ada_header course_body) (State (school_store "cobol") [])
    ada_user "Intro to Rocq" "Proofs and programs" (JNum 1) 1
    ltac:(reflexivity) ltac:(vm_compute; reflexivity) ltac:(vm_compute; reflexivity)
    ltac:(vm_compute; reflexivity) ltac:(vm_compute; reflexivity)
    ltac:(vm_compute; reflexivity) ltac:(vm_compute; reflexivity)
    ltac:(vm_compute; reflexivity)).
  destruct (@serve demo_libs false (req PostCourses ada_header course_body)
              (State (school_store "cobol") [])) as [resp s'].
  intros (Hc & _ & _ & Hr). cbn [fst snd]. rewrite Hc, Hr. split; reflexivity.
Defined.

Lemma course_write_unknown_owner_witness :
  @serve demo_libs true (req PostCourses ada_header stranger_course_body)
    (State (school_store "cobol") []) =
  (internal_error "SequelizeForeignKeyConstraintError"
     "SQLITE_CONSTRAINT: FOREIGN KEY constraint failed",
   State (school_store "cobol") []) /\
  @serve demo_libs true (req (PutCourse 1) ada_header stranger_course_body)
    (State (school_store "cobol") []) =
  (internal_error "SequelizeForeignKeyConstraintError"
     "SQLITE_CONSTRAINT: FOREIGN KEY constraint failed",
   State (school_store "cobol") []).
Proof.
  split.
  - apply (proj1 (@course_write_unknown_owner demo_libs true
      (req PostCourses ada_header stranger_course_body) (State (school_store "cobol") [])
      ada_user "Intro to Rocq" "Proofs and programs" (JNum 9)
      ltac:(vm_compute; reflexivity) ltac:(vm_compute; reflexivity)
      ltac:(vm_compute; reflexivity) ltac:(vm_compute; reflexivity)
      ltac:(vm_compute; reflexivity)
      ltac:(intros z Hz; vm_compute in Hz; injection Hz as <-; vm_compute; reflexivity))).
    reflexivity.
  - apply (proj2 (@course_write_unknown_owner demo_libs true
      (req (PutCourse 1) ada_header stranger_course_body) (State (school_store "cobol") [])
      ada_user "Intro to Rocq" "Proofs and programs" (JNum 9)
      ltac:(vm_compute; reflexivity) ltac:(vm_compute; reflexivity)
      ltac:(vm_compute; reflexivity) ltac:(vm_compute; reflexivity)
      ltac:(vm_compute; reflexivity)
      ltac:(intros z Hz; vm_compute in Hz; injection Hz as <-; vm_compute; reflexivity))
      1 grace_course);
      vm_compute; reflexivity.
Defined.

Lemma delete_course_removes_witness :
  @serve demo_libs true (req (DeleteCourse 7) ada_header [])
    (State (school_store "cobol") []) =
  (Response 404 (message "That course id does not exist."),
   State (school_store "cobol") []) /\
  fst (@serve demo_libs true (req (DeleteCourse 1) ada_header [])
         (State (school_store "cobol") [])) = MkResponse 204 None.
Proof.
  split.
  - apply (proj1 (@delete_course_removes demo_libs true (req (DeleteCourse 7) ada_header [])
      7 (State (school_store "cobol") []) ada_user ltac:(reflexivity)
      ltac:(vm_compute; reflexivity))).
    vm_compute. reflexivity.
  - generalize (proj2 (@delete_course_removes demo_libs true
      (req (DeleteCourse 1) ada_header []) 1 (State (school_store "cobol") []) ada_user
      ltac:(reflexivity) ltac:(vm_compute; reflexivity))
      grace_course ltac:(vm_compute; reflexivity)).
    destruct (@serve demo_libs true (req (DeleteCourse 1) ada_header [])
                (State (school_store "cobol") [])) as [resp s'].
    intros (Hr & _). exact Hr.
Defined.

Lemma post_then_get_course_witness :
  let s' := snd (@serve demo_libs true (req PostCourses ada_header course_body)
                   (State (school_store "cobol") [])) in
  @serve demo_libs true (req (GetCourse 3) None []) s' =
  (Response 200 (course_json
     (Course 3 "Intro to Rocq" "Proofs and programs" None None 1)), s').
Proof.
  exact (@post_then_get_course demo_libs true (req PostCourses ada_header course_body)
    (req (GetCourse 3) None []) (State (school_store "cobol") []) ada_user
    "Intro to Rocq" "Proofs and programs" (JNum 1) 1 school_store_wf
    ltac:(reflexivity) ltac:(vm_compute; reflexivity) ltac:(vm_compute; reflexivity)
    ltac:(vm_compute; reflexivity) ltac:(vm_compute; reflexivity)
    ltac:(vm_compute; reflexivity) ltac:(vm_compute; reflexivity)
    ltac:(vm_compute; reflexivity) ltac:(vm_compute; reflexivity)).
Defined.

Lemma put_course_frame_witness :
  let s' := snd (@serve demo_libs true (req (PutCourse 1) ada_header course_body)
                   (State (school_store "cobol") [])) in
  map c_id (courses (st_db s')) = [1; 2] /\
  nth_error (courses (st_db s')) 1 = Some ada_course /\
  users (st_db s') = users (school_store "cobol").
Proof.
  destruct (@put_course_frame demo_libs true (req (PutCourse 1) ada_header course_body) 1
    (State (school_store "cobol") []) ada_user grace_course (JNum 1) 1
    ltac:(reflexivity) ltac:(vm_compute; reflexivity) ltac:(vm_compute; reflexivity)
    ltac:(vm_compute; reflexivity) ltac:(vm_compute; reflexivity)
    ltac:(vm_compute; reflexivity) ltac:(vm_compute; reflexivity))
    as (Hm & Hn & Hu & _).
  split; [rewrite Hm; reflexivity|]. split; [|exact Hu].
  apply Hn; [reflexivity | discriminate].
Defined.

Lemma basic_auth_roundtrip_witness :
  utf8_wf (bytes_of ("ada@example.com" ++ ":" ++ cafe)) = true /\
  basic_auth (Some ("Basic " ++ encodeBase64 ("ada@example.com" ++ ":" ++ cafe)))
  = Some (Credentials "ada@example.com" cafe).
Proof.
  split; [vm_compute; reflexivity|].
  apply basic_auth_roundtrip; vm_compute; reflexivity.
Defined.

Lemma basic_auth_fields_witness :
  basic_auth ada_header = Some (Credentials "ada@example.com" "abc123") /\
  str_forallb (fun c => negb (Ascii.eqb c ":")) "ada@example.com" = true /\
  no_line_terminator "abc123" = true.
Proof.
  split; [vm_compute; reflexivity|].
  apply (basic_auth_fields ada_header). vm_compute. reflexivity.
Defined.
